(** * Import Todoist tasks: the fetch-and-render pipeline of [src/main.ts]

    A shallow embedding of [ImportAllTasksCommand] (projects lookup, task
    enrichment with comments, Markdown rendering, insertion at the cursor)
    and the properties of its specification. *)

From Stdlib Require Import Ascii String ZArith Lia.
From stdpp Require Import base option list gmap strings sorting.

Local Open Scope string_scope.
Local Open Scope Z_scope.

(** ** JavaScript strings and arrays *)

Module Js.

(** The line feed of the template literals. *)
Definition nl : string := String "010"%char EmptyString.

(** A JavaScript value in a boolean position: a string is falsy exactly
    when it is empty. *)
Definition truthy (s : string) : bool :=
  match s with
  | EmptyString => false
  | String _ _ => true
  end.

(** [Array.prototype.join]. *)
Fixpoint join (sep : string) (parts : list string) : string :=
  match parts with
  | [] => ""
  | [x] => x
  | x :: rest => x +:+ sep +:+ join sep rest
  end.

(** [s.startsWith(p)]. *)
Fixpoint startsWith (p s : string) : bool :=
  match p, s with
  | EmptyString, _ => true
  | String _ _, EmptyString => false
  | String a p', String b s' => if Ascii.eqb a b then startsWith p' s' else false
  end.

(** [s.slice(n)]. *)
Fixpoint slice (n : nat) (s : string) : string :=
  match n, s with
  | O, _ => s
  | S _, EmptyString => ""
  | S n', String _ s' => slice n' s'
  end.

(** [s.replace(pat, rep)] with a string pattern: only the first occurrence
    of [pat] is replaced ([rep] holds no [$] pattern here). *)
Fixpoint replace (pat rep s : string) : string :=
  if startsWith pat s then rep +:+ slice (String.length pat) s
  else match s with
       | EmptyString => ""
       | String c s' => String c (replace pat rep s')
       end.

(** [s.includes(sub)]. *)
Fixpoint includes (sub s : string) : bool :=
  startsWith sub s ||
  match s with
  | EmptyString => false
  | String _ s' => includes sub s'
  end.

(** [arr[i]] inside a template literal: an index that is not one of the
    array's prints as ["undefined"]. *)
Definition index (arr : list string) (i : Z) : string :=
  if i <? 0 then "undefined"
  else default "undefined" (arr !! Z.to_nat i).

(** [keys.includes(key)] on an array of strings. *)
Fixpoint has (key : string) (keys : list string) : bool :=
  match keys with
  | [] => false
  | k :: rest => String.eqb key k || has key rest
  end.

(** [s.split("\n")]. *)
Fixpoint lines (s : string) : list string :=
  match s with
  | EmptyString => [""]
  | String c s' =>
      if Ascii.eqb c "010"%char then "" :: lines s'
      else match lines s' with
           | [] => [String c ""]
           | l :: ls => String c l :: ls
           end
  end.

End Js.

(** ** Data model: the interfaces of [src/main.ts] *)

Record Comment := mkComment {
  comment_content : string;
  comment_id : string;
  posted_at : string;
  task_id : string;
}.

Record Due := mkDue {
  due_date : string;
  is_recurring : bool;
  datetime : string;
  due_string : string;
  timezone : string;
}.

Record Project := mkProject {
  project_ident : string;
  name : string;
  comment_count : Z;
  order : Z;
  color : string;
  is_shared : bool;
  is_favorite : bool;
  project_parent_id : string;
  is_inbox_project : bool;
  is_team_inbox : bool;
  view_style : string;
  url : string;
}.

(** [description] and [due] are tested for truthiness by the renderer, so
    they may be missing; [duration] has type [any] and is kept as raw text. *)
Record Task := mkTask {
  creator_id : string;
  created_at : string;
  assignee_id : string;
  assigner_id : string;
  is_completed : bool;
  content : string;
  description : option string;
  due : option Due;
  duration : string;
  id : string;
  labels : list string;
  priority : Z;
  project_id : string;
  section_id : string;
  parent_id : string;
  comments : list Comment;
}.

(** A failure: a [TypeError] raised by the code, or a request that failed. *)
Inductive Error :=
| TypeError (msg : string)
| RequestError (msg : string).

(** ** Reading the lookup object *)

(** [this.projects] is a plain object, [{}] at first: a key that no
    assignment has set is looked for in its prototype. *)

(** The functions that an object inherits from [Object.prototype]. *)
Definition object_prototype_functions : list string :=
  ["constructor"; "__defineGetter__"; "__defineSetter__"; "hasOwnProperty";
   "__lookupGetter__"; "__lookupSetter__"; "isPrototypeOf";
   "propertyIsEnumerable"; "toString"; "valueOf"; "toLocaleString"].

(** The [name] of such a function: its key, but [Object] for [constructor]. *)
Definition function_name (key : string) : string :=
  if String.eqb key "constructor" then "Object" else key.

(** The keys of a project object, [interface Project]. *)
Definition project_keys : list string :=
  ["id"; "name"; "comment_count"; "order"; "color"; "is_shared"; "is_favorite";
   "parent_id"; "is_inbox_project"; "is_team_inbox"; "view_style"; "url"].

(** What [this.projects[key]] can be. *)
Inductive Property :=
| AProject (p : Project)
| AFunction (fname : string)
| APrototype
| APrimitive
| Undefined.

(** [this.projects[key]], the lookup holding what the assignments
    [this.projects[project.id] = project] have set: a project under its id;
    else, when a project was assigned under [__proto__] and so became the
    prototype, a field of that project, which is a string, a number or a
    boolean; else a function of [Object.prototype]; else, for [__proto__],
    [Object.prototype] itself; else [undefined]. *)
Definition read_project (projects : gmap string Project) (key : string) : Property :=
  match projects !! key with
  | Some p => AProject p
  | None =>
      if Js.has key project_keys && bool_decide (is_Some (projects !! "__proto__"))
      then APrimitive
      else if Js.has key object_prototype_functions then AFunction (function_name key)
      else if String.eqb key "__proto__" then APrototype
      else Undefined
  end.

(** [value.name]: reading it on [undefined] throws; a primitive and
    [Object.prototype] have none. *)
Definition name_of (value : Property) : Error + option string :=
  match value with
  | AProject p => inr (Some (name p))
  | AFunction fname => inr (Some fname)
  | APrototype => inr None
  | APrimitive => inr None
  | Undefined => inl (TypeError "Cannot read properties of undefined (reading 'name')")
  end.

(** ** The renderer *)

Section Renderer.

(** [moment(s).format("YYYY-MM-DD")] of the date library, in the time zone
    of the host. *)
Variable format_date : string -> string.

Definition priority_names : list string :=
  ["none"; "low"; "medium"; "high"; "highest"].

Definition transformToMarkdown
    (projects : gmap string Project) (task : Task) : Error + string :=
  let tags := Js.join " " (map (fun label => "#" +:+ label) (labels task)) in
  let created := "[created:: " +:+ format_date (created_at task) +:+ "]" in
  let status := if is_completed task then "x" else " " in
  let description :=
    match description task with
    | Some d => if Js.truthy d then Js.nl +:+ d +:+ Js.nl else ""
    | None => ""
    end in
  let comments :=
    Js.join (Js.nl +:+ Js.nl) (map comment_content (comments task)) in
  let due :=
    match due task with
    | Some d => "[due:: " +:+ format_date (datetime d) +:+ "]"
    | None => ""
    end in
  let id := "[id:: " +:+ id task +:+ "]" in
  let priority :=
    "[priority:: " +:+ Js.index priority_names (priority task) +:+ "]" in
  match name_of (read_project projects (project_id task)) with
  | inl e => inl e
  | inr None =>
      inl (TypeError "Cannot read properties of undefined (reading 'replace')")
  | inr (Some project_name) =>
      let project := "#project-" +:+ Js.replace " " "-" project_name in
      inr ("- [" +:+ status +:+ "] " +:+ content task +:+ " " +:+ tags +:+ " "
           +:+ project +:+ " " +:+ created +:+ " " +:+ priority +:+ " "
           +:+ id +:+ " " +:+ due +:+ " " +:+ description +:+ Js.nl
           +:+ comments +:+ Js.nl)
  end.

End Renderer.

(** ** The host, the network and the command object *)

(** A position in the document, as [editor.getCursor()] returns it. *)
Record EditorPosition := mkPos { line : nat; ch : nat }.

(** What the program asks of its collaborators, in the order it asks. *)
Inductive Event :=
| HttpRequest (target method : string) (body : option string) (authorization : string)
| ConsoleLog (msg : string)
| GetCursor
| ReplaceRange (text : string) (pos : EditorPosition).

(** [method === "GET"] or not. *)
Inductive Method :=
| GET
| Other (method : string).

Definition method_name (m : Method) : string :=
  match m with
  | GET => "GET"
  | Other s => s
  end.

(** A promise that has settled. *)
Inductive Promise (A : Type) :=
| Resolved (value : A)
| Rejected (reason : Error).
Arguments Resolved {A} value.
Arguments Rejected {A} reason.

(** What [makeToDoistRequest] resolves to: the parsed body of a [GET], and
    [undefined] for every other method. *)
Definition Reply (m : Method) (A : Type) : Type :=
  match m with
  | GET => A
  | Other _ => unit
  end.

(** Everything outside the program during one import: what the service
    answers on its three endpoints (the comments of a task by the task's id),
    the instant at which the comment request of the i-th task settles, and
    where the cursor of the editor stands. *)
Record World := mkWorld {
  projects_response : Error + list Project;
  tasks_response : Error + list Task;
  comments_response : string -> Error + list Comment;
  arrival : nat -> nat;
  cursor : EditorPosition;
}.

(** A reference to a task object: the task objects of one import are the
    elements of the array parsed from the tasks response, so a reference is a
    position in [store]. *)
Abbreviation ref := nat (only parsing).

(** The command object ([todoistApiKey], [projects]), the task objects it
    holds references to, and the calls it has made so far. The object
    [projects] is read as a finite map from the ids of the fetched projects:
    what a JavaScript object inherits from its prototype is left out. *)
Record Machine := mkMachine {
  todoistApiKey : string;
  projects : gmap string Project;
  store : list Task;
  trace : list Event;
}.

Definition set_projects (ps : gmap string Project) (m : Machine) : Machine :=
  mkMachine (todoistApiKey m) ps (store m) (trace m).
Definition set_store (ts : list Task) (m : Machine) : Machine :=
  mkMachine (todoistApiKey m) (projects m) ts (trace m).
Definition emit (evs : list Event) (m : Machine) : Machine :=
  mkMachine (todoistApiKey m) (projects m) (store m) (trace m ++ evs).

(** [task.comments = comments]. *)
Definition set_comments (cs : list Comment) (t : Task) : Task :=
  mkTask (creator_id t) (created_at t) (assignee_id t) (assigner_id t)
         (is_completed t) (content t) (description t) (due t) (duration t)
         (id t) (labels t) (priority t) (project_id t) (section_id t)
         (parent_id t) cs.

(** [new ImportAllTasksCommand(todoistApiKey)]. *)
Definition new_command (apiKey : string) : Machine :=
  mkMachine apiKey ∅ [] [].

Definition projects_url : string := "https://api.todoist.com/rest/v2/projects".
Definition tasks_url : string := "https://api.todoist.com/rest/v2/tasks".
Definition comments_url (task_ident : string) : string :=
  "https://api.todoist.com/rest/v2/comments?task_id=" +:+ task_ident.

(** The promise of [requestUrl(...).then((res) => res.json)], once settled. *)
Definition settled {A : Type} (answer : Error + A) : Promise A :=
  match answer with
  | inr json => Resolved json
  | inl e => Rejected e
  end.

(** [makeToDoistRequest]: one authenticated call. A [GET] settles as the
    service answers; any other method is issued and forgotten. *)
Definition makeToDoistRequest {A : Type}
    (target : string) (method : Method) (apiKey : string) (body : option string)
    (answer : Error + A) (m : Machine) : Promise (Reply method A) * Machine :=
  let m' := emit [HttpRequest target (method_name method) body
                              ("Bearer " +:+ apiKey)] m in
  match method return Promise (Reply method A) * Machine with
  | GET => (settled answer, m')
  | Other _ => (Resolved tt, m')
  end.

(** [projects.forEach((project) => { this.projects[project.id] = project })]. *)
Definition index_projects
    (fetched : list Project) (lookup : gmap string Project) : gmap string Project :=
  foldl (fun acc project => <[project_ident project := project]> acc) lookup fetched.

Definition loadProjects (w : World) (m : Machine) : Promise unit * Machine :=
  match makeToDoistRequest projects_url GET (todoistApiKey m) None (projects_response w) m with
  | (Resolved fetched, m') =>
      (Resolved tt, set_projects (index_projects fetched (projects m')) m')
  | (Rejected e, m') => (Rejected e, m')
  end.

(** [allTasks]: the parsed array; its elements become the task objects. *)
Definition allTasks (w : World) (m : Machine) : Promise (list ref) * Machine :=
  match makeToDoistRequest tasks_url GET (todoistApiKey m) None (tasks_response w) m with
  | (Resolved fetched, m') =>
      (Resolved (seq 0 (length fetched)), set_store fetched m')
  | (Rejected e, m') => (Rejected e, m')
  end.

(** [withComments] up to its [.then]: the task's id is read and the request
    issued; reading the id of a missing object throws. *)
Definition request_comments (w : World) (task : ref) (m : Machine)
    : Error + (Promise (list Comment) * Machine) :=
  match store m !! task with
  | None => inl (TypeError "Cannot read properties of undefined (reading 'id')")
  | Some t =>
      inr (makeToDoistRequest (comments_url (id t)) GET (todoistApiKey m) None
                              (comments_response w (id t)) m)
  end.

(** [task.comments = comments] on the object behind the reference. *)
Definition attach_comments (task : ref) (cs : list Comment) (m : Machine) : Machine :=
  set_store (alter (set_comments cs) task (store m)) m.

(** The callback of [withComments], run when its request settles:
    [(comments) => { task.comments = comments; return task; }]. *)
Definition then_attach (task : ref) (answer : Promise (list Comment)) (m : Machine)
    : Promise ref * Machine :=
  match answer with
  | Resolved cs => (Resolved task, attach_comments task cs m)
  | Rejected e => (Rejected e, m)
  end.

(** [withComments] run alone, from the request to its callback. *)
Definition withComments (w : World) (task : ref) (m : Machine) : Promise ref * Machine :=
  match request_comments w task m with
  | inl e => (Rejected e, m)
  | inr (answer, m') => then_attach task answer m'
  end.

(** [tasks.map((task) => this.withComments(task))]: every request is issued,
    in the order of the array, before any of them settles. *)
Fixpoint enrichTasksWithComments (w : World) (tasks : list ref) (m : Machine)
    : (Error + list (ref * Promise (list Comment))) * Machine :=
  match tasks with
  | [] => (inr [], m)
  | task :: rest =>
      match request_comments w task m with
      | inl e => (inl e, m)
      | inr (answer, m') =>
          match enrichTasksWithComments w rest m' with
          | (inr pending, m'') => (inr ((task, answer) :: pending), m'')
          | (inl e, m'') => (inl e, m'')
          end
      end
  end.

(** The pending requests in the order in which they settle: by instant of
    arrival, and by position in the array when two arrive together. *)
Fixpoint insert_by_arrival {A : Type} (x : nat * A) (queue : list (nat * A))
    : list (nat * A) :=
  match queue with
  | [] => [x]
  | y :: queue' =>
      if (x.1 <=? y.1)%nat then x :: queue
      else y :: insert_by_arrival x queue'
  end.

Definition by_arrival {A : Type} (w : World) (pending : list A) : list A :=
  (foldr insert_by_arrival [] (imap (fun i p => (arrival w i, p)) pending)).*2.

(** The callbacks run as the requests settle, up to the first rejection. *)
Fixpoint settle (queue : list (ref * Promise (list Comment))) (m : Machine)
    : option Error * Machine :=
  match queue with
  | [] => (None, m)
  | (task, answer) :: queue' =>
      match then_attach task answer m with
      | (Resolved _, m') => settle queue' m'
      | (Rejected e, m') => (Some e, m')
      end
  end.

(** [Promise.all]: resolved with every value, in the order of the array, once
    all have resolved; rejected as soon as one is. *)
Definition Promise_all (w : World) (pending : list (ref * Promise (list Comment)))
    (m : Machine) : Promise (list ref) * Machine :=
  match settle (by_arrival w pending) m with
  | (None, m') => (Resolved pending.*1, m')
  | (Some e, m') => (Rejected e, m')
  end.

Definition loadData (w : World) (m : Machine) : Promise (list ref) * Machine :=
  match loadProjects w m with
  | (Rejected e, m1) => (Rejected e, m1)
  | (Resolved _, m1) =>
      match allTasks w m1 with
      | (Rejected e, m2) => (Rejected e, m2)
      | (Resolved tasks, m2) =>
          match enrichTasksWithComments w tasks m2 with
          | (inl e, m3) => (Rejected e, m3)
          | (inr pending, m3) => Promise_all w pending m3
          end
      end
  end.

Section Execute.

Variable format_date : string -> string.

(** [this.transformToMarkdown(task)] on a reference. *)
Definition render (m : Machine) (task : ref) : Error + string :=
  match store m !! task with
  | None => inl (TypeError "Cannot read properties of undefined (reading 'labels')")
  | Some t => transformToMarkdown format_date (projects m) t
  end.

(** [tasks.map(...)]: the first callback that throws ends the map. *)
Fixpoint map_throwing {A B : Type} (f : A -> Error + B) (l : list A)
    : Error + list B :=
  match l with
  | [] => inr []
  | x :: rest =>
      match f x with
      | inl e => inl e
      | inr y =>
          match map_throwing f rest with
          | inl e => inl e
          | inr ys => inr (y :: ys)
          end
      end
  end.

Definition separator : string := Js.nl +:+ "---" +:+ Js.nl.

Definition execute (w : World) (m : Machine) : Promise unit * Machine :=
  match loadData w m with
  | (Rejected e, m1) => (Rejected e, m1)
  | (Resolved tasks, m1) =>
      let m2 := emit [ConsoleLog "Importing all tasks"] m1 in
      match map_throwing (render m2) tasks with
      | inl e => (Rejected e, m2)
      | inr markdownTasks =>
          (Resolved tt,
           emit [GetCursor;
                 ReplaceRange (Js.join separator markdownTasks) (cursor w)] m2)
      end
  end.

End Execute.

(** ** The commander and the plugin *)

Module Plugin.

(** [interface ImportTodoistSettings]. *)
Record ImportTodoistSettings := mkSettings { todoistApiKey : string }.

Definition IMPORT_TODOIST_SETTINGS : ImportTodoistSettings := mkSettings "apiKey".

(** [Object.assign({}, defaults, loaded)]: [loaded] is what the host has
    saved for the plugin, nothing or an object that may hold the key. *)
Definition assign (defaults : ImportTodoistSettings) (loaded : option (option string))
    : ImportTodoistSettings :=
  match loaded with
  | Some (Some key) => mkSettings key
  | _ => defaults
  end.

(** The plugin: the data that the host keeps for it, the settings objects
    created so far, the object that [this.settings] refers to and the one
    that the commander was given; [None] stands for [undefined]. *)
Record State := mkState {
  data : option (option string);
  objects : list ImportTodoistSettings;
  settings : option ref;
  commander : option ref;
}.

(** The plugin as the host holds it before [onload]. *)
Definition installed (saved : option (option string)) : State :=
  mkState saved [] None None.

(** [this.settings = Object.assign({}, IMPORT_TODOIST_SETTINGS, await this.loadData())]. *)
Definition loadSettings (st : State) : State :=
  mkState (data st)
          (objects st ++ [assign IMPORT_TODOIST_SETTINGS (data st)])
          (Some (length (objects st)))
          (commander st).

(** [onload]: the settings are loaded and [new Commander(this.settings)]
    keeps the reference. *)
Definition onload (st : State) : State :=
  let st' := loadSettings st in
  mkState (data st') (objects st') (settings st') (settings st').

(** [this.saveData(this.settings)], [o] being the object that
    [this.settings] refers to. *)
Definition saveSettings (o : ImportTodoistSettings) (st : State) : State :=
  mkState (Some (Some (todoistApiKey o))) (objects st) (settings st) (commander st).

(** The [onChange] of the settings tab:
    [this.plugin.settings.todoistApiKey = value; await this.plugin.saveSettings()]. *)
Definition onChange (value : string) (st : State) : Error + State :=
  match settings st with
  | None =>
      inl (TypeError "Cannot set properties of undefined (setting 'todoistApiKey')")
  | Some r =>
      match objects st !! r with
      | None =>
          inl (TypeError "Cannot set properties of undefined (setting 'todoistApiKey')")
      | Some _ =>
          let o := mkSettings value in
          inr (saveSettings o
                 (mkState (data st) (<[r := o]> (objects st)) (settings st)
                          (commander st)))
      end
  end.

(** The key that the commander reads: [this.settings.todoistApiKey]. *)
Definition commander_key (st : State) : option string :=
  r ← commander st; o ← objects st !! r; Some (todoistApiKey o).

(** [Commander.importAllTasks], as the command of the plugin calls it: a new
    [ImportAllTasksCommand] with the key of the commander's settings. *)
Definition importAllTasks (format_date : string -> string) (w : World) (st : State)
    : Error + (Promise unit * Machine) :=
  match commander_key st with
  | None =>
      inl (TypeError "Cannot read properties of undefined (reading 'todoistApiKey')")
  | Some key => inr (execute format_date w (new_command key))
  end.

(** The keys typed one after the other in the settings tab. *)
Fixpoint type_keys (values : list string) (st : State) : Error + State :=
  match values with
  | [] => inr st
  | value :: rest =>
      match onChange value st with
      | inl e => inl e
      | inr st' => type_keys rest st'
      end
  end.

End Plugin.

(** ** Words of the specification *)

(** The character [c] occurs in [p]. *)
Fixpoint holds (c : ascii) (p : string) : bool :=
  match p with
  | EmptyString => false
  | String d p' => Ascii.eqb d c || holds c p'
  end.

(** The key that opens a due-date annotation. *)
Definition due_key : string := "[due::".

(** No due-date annotation starts anywhere in [s]. *)
Definition due_free (s : string) : Prop := Js.includes due_key s = false.

(** The texts that a task brings into its block: its own, the name of its
    project and its formatted date of creation. *)
Definition task_texts (format_date : string -> string) (P : Project) (t : Task)
    : list string :=
  content t :: name P :: format_date (created_at t) :: id t
    :: default "" (description t)
    :: labels t ++ map comment_content (comments t).

(** A line of spaces only. *)
Fixpoint blank (l : string) : bool :=
  match l with
  | EmptyString => true
  | String c l' => Ascii.eqb c " " && blank l'
  end.

(** Among the lines [ls], [d] is a line of its own with a blank line before
    it and a blank line after it. *)
Fixpoint framed_by_blank_lines (d : string) (ls : list string) : bool :=
  match ls with
  | above :: rest =>
      match rest with
      | l :: below :: _ => blank above && String.eqb l d && blank below
      | _ => false
      end || framed_by_blank_lines d rest
  | [] => false
  end.

(** [s] holds no line feed. *)
Definition nl_free (s : string) : Prop := Js.includes Js.nl s = false.

(** The texts that a task brings into the first line of its block: its
    title, its labels, its id, the name of its project and its formatted
    dates. *)
Definition line_texts (format_date : string -> string) (P : Project) (t : Task)
    : list string :=
  content t :: name P :: format_date (created_at t) :: id t
    :: match due t with
       | Some d => [format_date (datetime d)]
       | None => []
       end ++ labels t.

(** The task without its description. *)
Definition without_description (t : Task) : Task :=
  mkTask (creator_id t) (created_at t) (assignee_id t) (assigner_id t)
         (is_completed t) (content t) None (due t) (duration t)
         (id t) (labels t) (priority t) (project_id t) (section_id t)
         (parent_id t) (comments t).

(** The task with another due date, or none. *)
Definition with_due (du : option Due) (t : Task) : Task :=
  mkTask (creator_id t) (created_at t) (assignee_id t) (assigner_id t)
         (is_completed t) (content t) (description t) du (duration t)
         (id t) (labels t) (priority t) (project_id t) (section_id t)
         (parent_id t) (comments t).

(** The texts that the program has asked the editor to insert. *)
Definition insertions (tr : list Event) : list string :=
  omap (fun ev => match ev with
                  | ReplaceRange text _ => Some text
                  | _ => None
                  end) tr.

(** The messages that the program has logged. *)
Definition logged (tr : list Event) : list string :=
  omap (fun ev => match ev with
                  | ConsoleLog msg => Some msg
                  | _ => None
                  end) tr.

(** The task record with its comments left out: two records with the same
    image differ at most in their comments. *)
Definition without_comments (t : Task) : Task := set_comments [] t.

(** What a silent step leaves alone: the key, the insertions and the log. *)
Definition silent (m m' : Machine) : Prop :=
  todoistApiKey m' = todoistApiKey m /\
  insertions (trace m') = insertions (trace m) /\
  logged (trace m') = logged (trace m).

(** The request that [makeToDoistRequest] issues for a [GET]. *)
Definition get_request (key target : string) : Event :=
  HttpRequest target "GET" None ("Bearer " +:+ key).

(** One comment request per task, in the order of the tasks. *)
Definition comment_requests (key : string) (ts : list Task) : list Event :=
  map (fun t => get_request key (comments_url (id t))) ts.

(** A request is a body-less [GET] on one of the three endpoints that
    carries the key; the other events are of no concern. *)
Definition authorized_get (key : string) (ev : Event) : Prop :=
  match ev with
  | HttpRequest target method body auth =>
      method = "GET" /\ body = None /\ auth = "Bearer " +:+ key /\
      (target = projects_url \/ target = tasks_url \/
       exists task_ident, target = comments_url task_ident)
  | _ => True
  end.

(** The settings tab and the commander hold the same settings object. *)
Definition shares_settings (st : Plugin.State) : Prop :=
  exists r, Plugin.settings st = Some r /\ Plugin.commander st = Some r /\
            (r < length (Plugin.objects st))%nat.

(** The world with another order of arrival. *)
Definition with_arrival (f : nat -> nat) (w : World) : World :=
  mkWorld (projects_response w) (tasks_response w) (comments_response w) f (cursor w).

(** [s] ends with a line feed. *)
Fixpoint ends_with_nl (s : string) : bool :=
  match s with
  | EmptyString => false
  | String c EmptyString => Ascii.eqb c "010"
  | String _ s' => ends_with_nl s'
  end.

(** ** Concrete inputs *)

(** The project and the task of the scenario of the specification. *)
Definition p1 : Project :=
  mkProject "p1" "Work Stuff" 0 0 "" false false "" false false "" "".
Definition t1 : Task :=
  mkTask "" "2024-01-05T10:00:00Z" "" "" false "Write report" None None ""
         "t1" ["urgent"] 3 "p1" "" "" [].

(** A completed task with a description. *)
Definition t2 : Task :=
  mkTask "" "2024-01-06T10:00:00Z" "" "" true "Second" (Some "Details") None ""
         "t2" [] 1 "p1" "" "" [].

(** A task with a due date and a comment. *)
Definition t3 : Task :=
  mkTask "" "2024-01-07T08:30:00Z" "" "" false "Pay rent" None
         (Some (mkDue "2024-02-01" false "2024-02-01T09:00:00Z" "Feb 1" "UTC")) ""
         "t3" ["home"; "money"] 4 "p1" "" ""
         [mkComment "by bank transfer" "c1" "2024-01-08T00:00:00Z" "t3"].

(** A task of a project that the service does not list. *)
Definition t4 : Task :=
  mkTask "" "2024-01-08T10:00:00Z" "" "" false "Orphan" None None ""
         "t4" [] 2 "p9" "" "" [].

(** A project with two spaces in its name. *)
Definition p2 : Project :=
  mkProject "p2" "Home and Garden" 0 1 "" false false "" false false "" "".
Definition t5 : Task :=
  mkTask "" "2024-01-09T10:00:00Z" "" "" false "Mow" None None ""
         "t5" [] 1 "p2" "" "" [].

(** A task without due date whose title holds the text of an annotation. *)
Definition t6 : Task :=
  mkTask "" "2024-01-10T10:00:00Z" "" "" false "see [due:: tomorrow]" None None ""
         "t6" [] 1 "p1" "" "" [].

(** A task with a priority that the service does not use. *)
Definition t7 : Task :=
  mkTask "" "2024-01-11T10:00:00Z" "" "" false "Urgent" None None ""
         "t7" [] 5 "p1" "" "" [].

(** The project of the scenario under another name, fetched after it. *)
Definition p1' : Project :=
  mkProject "p1" "Work" 0 2 "" false false "" false false "" "".

(** A task whose project id is the name of a function that every object
    inherits. *)
Definition t8 : Task :=
  mkTask "" "2024-01-12T10:00:00Z" "" "" false "Stray" None None ""
         "t8" [] 1 "constructor" "" "" [].

(** The date library on a host whose zone is UTC, for an instant written
    in UTC: the day is the first ten characters. *)
Definition utc_day (s : string) : string := String.substring 0 10 s.

Definition lookup1 : gmap string Project := index_projects [p1; p2] ∅.

(** Days since 1970-01-01 of a date of the Gregorian calendar. *)
Definition days_from_civil (y m d : Z) : Z :=
  let y' := if m <=? 2 then y - 1 else y in
  let era := y' / 400 in
  let yoe := y' - era * 400 in
  let doy := (153 * (if 2 <? m then m - 3 else m + 9) + 2) / 5 + d - 1 in
  let doe := yoe * 365 + yoe / 4 - yoe / 100 + doy in
  era * 146097 + doe - 719468.

(** The date of the Gregorian calendar that many days after 1970-01-01. *)
Definition civil_from_days (z : Z) : Z * Z * Z :=
  let z' := z + 719468 in
  let era := z' / 146097 in
  let doe := z' - era * 146097 in
  let yoe := (doe - doe / 1460 + doe / 36524 - doe / 146096) / 365 in
  let doy := doe - (365 * yoe + yoe / 4 - yoe / 100) in
  let mp := (5 * doy + 2) / 153 in
  let d := doy - (153 * mp + 2) / 5 + 1 in
  let m := if mp <? 10 then mp + 3 else mp - 9 in
  (if m <=? 2 then yoe + era * 400 + 1 else yoe + era * 400, m, d).

(** The number that a text of digits writes. *)
Fixpoint number_of (s : string) (acc : Z) : option Z :=
  match s with
  | EmptyString => Some acc
  | String c s' =>
      let n := Z.of_nat (nat_of_ascii c) - 48 in
      if (0 <=? n) && (n <=? 9) then number_of s' (acc * 10 + n) else None
  end.

(** The number written at [start] on [len] digits. *)
Definition digits_at (start len : nat) (s : string) : option Z :=
  let part := String.substring start len s in
  if (String.length part =? len)%nat then number_of part 0 else None.

Definition digit_char (n : Z) : ascii := ascii_of_nat (48 + Z.to_nat n).

Definition two_digits (n : Z) : string :=
  String (digit_char (n / 10)) (String (digit_char (n mod 10)) "").

Definition four_digits (n : Z) : string :=
  two_digits (n / 100) +:+ two_digits (n mod 100).

(** The date library on a host whose zone is [offset] minutes east of UTC,
    for an instant written [YYYY-MM-DDTHH:MM...]Z in UTC: the day on which
    the instant falls on that host. Texts that are not written so are
    answered with [Invalid date] by this instance. *)
Definition host_day (offset : Z) (s : string) : string :=
  match digits_at 0 4 s, digits_at 5 2 s, digits_at 8 2 s,
        digits_at 11 2 s, digits_at 14 2 s with
  | Some y, Some mo, Some d, Some h, Some mi =>
      if String.eqb (String.substring 4 1 s) "-"
         && String.eqb (String.substring 7 1 s) "-"
         && String.eqb (String.substring 10 1 s) "T"
         && String.eqb (String.substring 13 1 s) ":"
         && String.eqb (String.substring (String.length s - 1) 1 s) "Z"
      then
        let minutes := days_from_civil y mo d * 1440 + h * 60 + mi + offset in
        match civil_from_days (minutes / 1440) with
        | (y', mo', d') =>
            four_digits y' +:+ "-" +:+ two_digits mo' +:+ "-" +:+ two_digits d'
        end
      else "Invalid date"
  | _, _, _, _, _ => "Invalid date"
  end.

(** A service that answers every request; the comment requests settle in
    the reverse of the order in which they were issued. *)
Definition w_ok : World :=
  mkWorld (inr [p1; p2]) (inr [t1; t2])
    (fun i => if String.eqb i "t1"
              then inr [mkComment "hello" "c1" "2024-01-05T11:00:00Z" "t1"]
              else inr [])
    (fun i => (10 - i)%nat) (mkPos 3 0).

(** The same service, the comments of [t2] failing. *)
Definition w_comment_failure : World :=
  mkWorld (inr [p1; p2]) (inr [t1; t2])
    (fun i => if String.eqb i "t2" then inl (RequestError "Request failed, status 500")
              else inr [])
    (fun i => (10 - i)%nat) (mkPos 3 0).

(** A service that lists the id [p1] twice. *)
Definition w_renamed : World :=
  mkWorld (inr [p1; p1'; p2]) (inr [t1]) (fun _ => inr []) (fun i => i) (mkPos 0 0).

(** A service that refuses the key on the tasks. *)
Definition w_no_tasks : World :=
  mkWorld (inr [p1; p2]) (inl (RequestError "Request failed, status 401"))
    (fun _ => inr []) (fun i => i) (mkPos 0 0).

(** No network. *)
Definition w_offline : World :=
  mkWorld (inl (RequestError "net::ERR_NAME_NOT_RESOLVED"))
    (inl (RequestError "net::ERR_NAME_NOT_RESOLVED"))
    (fun _ => inl (RequestError "net::ERR_NAME_NOT_RESOLVED")) (fun i => i) (mkPos 0 0).

(** A service without tasks. *)
Definition w_empty : World :=
  mkWorld (inr [p1; p2]) (inr []) (fun _ => inr []) (fun i => i) (mkPos 7 2).

(** Both comment requests fail, the second one first. *)
Definition w_two_failures : World :=
  mkWorld (inr [p1; p2]) (inr [t1; t2])
    (fun i => inl (RequestError (i +:+ " failed")))
    (fun i => (10 - i)%nat) (mkPos 0 0).

(** A service that lists a task whose project id is [constructor]. *)
Definition w_constructor : World :=
  mkWorld (inr [p1; p2]) (inr [t8]) (fun _ => inr []) (fun i => i) (mkPos 0 0).

(** A service that lists a task of a project it does not list. *)
Definition w_orphan : World :=
  mkWorld (inr [p1; p2]) (inr [t1; t4]) (fun _ => inr []) (fun i => i) (mkPos 3 0).

(** The block that the specification gives for the scenario, with one space
    between the id and the line break. *)
Definition scenario_block_of_spec : string :=
  "- [ ] Write report #urgent #project-Work-Stuff [created:: 2024-01-05] [priority:: high] [id:: t1] "
  +:+ Js.nl +:+ Js.nl.

(** The block that the code gives: the empty due date and the empty
    description each keep the space of the template before them. *)
Definition scenario_block : string :=
  "- [ ] Write report #urgent #project-Work-Stuff [created:: 2024-01-05] [priority:: high] [id:: t1]  "
  +:+ Js.nl +:+ Js.nl.

(** ** Facts about the string operations *)

Section StringFacts.

Implicit Types (s a b p sub pre post : string) (c : ascii).

Lemma append_nil_l s : "" +:+ s = s.
Proof. reflexivity. Qed.

Lemma append_cons c a b : String c a +:+ b = String c (a +:+ b).
Proof. reflexivity. Qed.

Lemma append_nil_r s : s +:+ "" = s.
Proof. induction s as [|c s IH]; [done|]. by rewrite append_cons, IH. Qed.

Lemma append_assoc a b s : (a +:+ b) +:+ s = a +:+ b +:+ s.
Proof. induction a as [|c a IH]; [done|]. by rewrite !append_cons, IH. Qed.

Lemma startsWith_app p s : Js.startsWith p (p +:+ s) = true.
Proof.
  induction p as [|c p IH]; [by destruct s|].
  rewrite append_cons. simpl. by rewrite Ascii.eqb_refl.
Qed.

Lemma startsWith_inv p s :
  Js.startsWith p s = true -> exists post, s = p +:+ post.
Proof.
  revert s. induction p as [|c p IH]; intros s H.
  - by exists s.
  - destruct s as [|d s]; [done|]. simpl in H.
    destruct (Ascii.eqb_spec c d) as [->|]; [|done].
    destruct (IH _ H) as [post ->]. by exists post.
Qed.

Lemma includes_app_r sub a b :
  Js.includes sub b = true -> Js.includes sub (a +:+ b) = true.
Proof.
  intros H. induction a as [|c a IH]; [done|].
  rewrite append_cons. simpl. rewrite IH. apply orb_true_r.
Qed.

Lemma includes_prefix sub post : Js.includes sub (sub +:+ post) = true.
Proof.
  destruct (sub +:+ post) eqn:E; simpl; rewrite <- E, startsWith_app; done.
Qed.

Lemma includes_intro pre sub post :
  Js.includes sub (pre +:+ sub +:+ post) = true.
Proof. apply includes_app_r, includes_prefix. Qed.

(** [includes] is the substring relation. *)
Lemma includes_spec sub s :
  Js.includes sub s = true <-> exists pre post, s = pre +:+ sub +:+ post.
Proof.
  split.
  - induction s as [|c s IH]; simpl; intros H.
    + rewrite orb_false_r in H. destruct (startsWith_inv _ _ H) as [post E].
      by exists "", post.
    + apply orb_true_iff in H as [H|H].
      * destruct (startsWith_inv _ _ H) as [post E]. by exists "", post.
      * destruct (IH H) as (pre & post & ->). by exists (String c pre), post.
  - intros (pre & post & ->). apply includes_intro.
Qed.

(** A character that the pattern does not hold cuts every occurrence. *)
Lemma startsWith_cut p c a b :
  holds c p = false ->
  Js.startsWith p (a +:+ String c b) = Js.startsWith p a.
Proof.
  revert a. induction p as [|d p IH]; intros a H; [by destruct a|].
  simpl in H. apply orb_false_iff in H as [Hd Hp].
  destruct a as [|e a].
  - rewrite append_nil_l. simpl. by rewrite Hd.
  - rewrite append_cons. simpl. by rewrite IH.
Qed.

Lemma includes_cut p c a b :
  holds c p = false ->
  Js.includes p (a +:+ String c b) = Js.includes p a || Js.includes p b.
Proof.
  intros H. induction a as [|e a IH].
  - rewrite append_nil_l. simpl.
    rewrite <- (append_nil_l (String c b)), startsWith_cut by done.
    by rewrite orb_false_r.
  - rewrite append_cons. simpl.
    rewrite <- append_cons, startsWith_cut, IH by done.
    by rewrite orb_assoc.
Qed.

(** [replace " " "-"]: the first space, and only that one. *)
Lemma startsWith_char x c s :
  Js.startsWith (String x "") (String c s) = Ascii.eqb x c.
Proof. unfold Js.startsWith. by destruct (Ascii.eqb x c). Qed.

Lemma startsWith_space c s : Js.startsWith " " (String c s) = Ascii.eqb " " c.
Proof. apply startsWith_char. Qed.

Lemma includes_space_cons c s :
  Js.includes " " (String c s) = Ascii.eqb " " c || Js.includes " " s.
Proof.
  change (Js.includes " " (String c s))
    with (Js.startsWith " " (String c s) || Js.includes " " s).
  by rewrite startsWith_space.
Qed.

Lemma replace_space_cons c s :
  Js.replace " " "-" (String c s) =
  if Ascii.eqb " " c then String "-" s else String c (Js.replace " " "-" s).
Proof.
  change (Js.replace " " "-" (String c s))
    with (if Js.startsWith " " (String c s) then "-" +:+ s
          else String c (Js.replace " " "-" s)).
  by rewrite startsWith_space.
Qed.

Lemma replace_no_space s :
  Js.includes " " s = false -> Js.replace " " "-" s = s.
Proof.
  induction s as [|c s IH]; [done|].
  rewrite includes_space_cons, replace_space_cons.
  intros [-> Hs]%orb_false_iff. by rewrite IH.
Qed.

Lemma replace_first_space a b :
  Js.includes " " a = false ->
  Js.replace " " "-" (a +:+ " " +:+ b) = a +:+ "-" +:+ b.
Proof.
  induction a as [|c a IH]; [done|].
  rewrite !(append_cons c a), includes_space_cons, replace_space_cons.
  intros [-> Ha]%orb_false_iff. by rewrite IH.
Qed.

Lemma replace_space_cases s :
  (Js.includes " " s = false /\ Js.replace " " "-" s = s) \/
  (exists a b, s = a +:+ " " +:+ b /\ Js.includes " " a = false /\
               Js.replace " " "-" s = a +:+ "-" +:+ b).
Proof.
  destruct (Js.includes " " s) eqn:E.
  - right. induction s as [|c s IH]; [done|].
    rewrite includes_space_cons in E.
    destruct (Ascii.eqb_spec " " c) as [<-|Hc].
    + by exists "", s.
    + destruct (IH E) as (a & b & -> & Ha & _).
      assert (Js.includes " " (String c a) = false) as Hca.
      { rewrite includes_space_cons, Ha.
        by destruct (Ascii.eqb_spec " " c). }
      exists (String c a), b. split; [done|]. split; [done|].
      by rewrite <- replace_first_space.
  - left. split; [done|]. by apply replace_no_space.
Qed.

(** Pieces free of the due key stay so when joined by a character that
    the key does not hold. *)
Lemma due_free_cut a c b :
  holds c due_key = false ->
  due_free a -> due_free b -> due_free (a +:+ String c b).
Proof.
  unfold due_free. intros Hc Ha Hb. by rewrite includes_cut, Ha, Hb.
Qed.

Lemma due_free_cut_inv a c b :
  holds c due_key = false ->
  due_free (a +:+ String c b) -> due_free a /\ due_free b.
Proof.
  unfold due_free. intros Hc. rewrite includes_cut by done.
  by intros [? ?]%orb_false_iff.
Qed.

Lemma due_free_tags ls :
  Forall due_free ls ->
  due_free (Js.join " " (map (fun label => "#" +:+ label) ls)).
Proof.
  induction 1 as [|l ls Hl Hls IH]; [done|].
  assert (due_free ("#" +:+ l)) as Hl'.
  { by apply (due_free_cut "" "#" l). }
  destruct ls as [|l' ls]; [done|].
  by apply (due_free_cut ("#" +:+ l) " ").
Qed.

Lemma due_free_comments ls :
  Forall due_free ls -> due_free (Js.join (Js.nl +:+ Js.nl) ls).
Proof.
  induction 1 as [|l ls Hl Hls IH]; [done|].
  destruct ls as [|l' ls]; [done|].
  apply (due_free_cut l "010"); [done..|].
  by apply (due_free_cut "" "010").
Qed.

Lemma due_free_replace s : due_free s -> due_free (Js.replace " " "-" s).
Proof.
  intros Hs.
  destruct (replace_space_cases s) as [[_ ->]|(a & b & -> & _ & ->)]; [done|].
  apply (due_free_cut_inv a " " b) in Hs as [Ha Hb]; [|done].
  by apply (due_free_cut a "-" b).
Qed.

Lemma due_free_priority (i : Z) : due_free (Js.index priority_names i).
Proof.
  unfold Js.index, priority_names. destruct (i <? 0); [done|].
  by destruct (Z.to_nat i) as [|[|[|[|[|n]]]]].
Qed.

(** The first line of a text. *)
Lemma lines_first a b :
  Js.includes Js.nl a = false -> Js.lines (a +:+ Js.nl +:+ b) = a :: Js.lines b.
Proof.
  induction a as [|c a IH]; [done|].
  change (Js.includes Js.nl (String c a))
    with (Js.startsWith Js.nl (String c a) || Js.includes Js.nl a).
  unfold Js.nl at 1. rewrite startsWith_char, Ascii.eqb_sym.
  intros [Hc Ha]%orb_false_iff.
  rewrite append_cons.
  change (Js.lines (String c (a +:+ Js.nl +:+ b)))
    with (if Ascii.eqb c "010" then "" :: Js.lines (a +:+ Js.nl +:+ b)
          else match Js.lines (a +:+ Js.nl +:+ b) with
               | [] => [String c ""]
               | l :: ls => String c l :: ls
               end).
  by rewrite Hc, IH.
Qed.

(** A pattern of one character is in a text when it is in one of its
    parts. *)
Lemma includes_char_app x a b :
  Js.includes (String x "") (a +:+ b) =
  Js.includes (String x "") a || Js.includes (String x "") b.
Proof.
  induction a as [|c a IH]; [done|].
  rewrite append_cons.
  change (Js.includes (String x "") (String c (a +:+ b)))
    with (Js.startsWith (String x "") (String c (a +:+ b))
          || Js.includes (String x "") (a +:+ b)).
  change (Js.includes (String x "") (String c a))
    with (Js.startsWith (String x "") (String c a) || Js.includes (String x "") a).
  by rewrite !startsWith_char, IH, orb_assoc.
Qed.

Lemma nl_free_app a b : nl_free a -> nl_free b -> nl_free (a +:+ b).
Proof. unfold nl_free, Js.nl. intros Ha Hb. by rewrite includes_char_app, Ha, Hb. Qed.

Lemma nl_free_app_inv a b : nl_free (a +:+ b) -> nl_free a /\ nl_free b.
Proof.
  unfold nl_free, Js.nl. rewrite includes_char_app. by intros [? ?]%orb_false_iff.
Qed.

Lemma nl_free_tags ls :
  Forall nl_free ls -> nl_free (Js.join " " (map (fun label => "#" +:+ label) ls)).
Proof.
  induction 1 as [|l ls Hl Hls IH]; [done|].
  assert (nl_free ("#" +:+ l)) as Hl' by by apply nl_free_app.
  destruct ls as [|l' ls]; [done|].
  change (nl_free (("#" +:+ l) +:+ " " +:+
                   Js.join " " (map (fun label => "#" +:+ label) (l' :: ls)))).
  by repeat apply nl_free_app.
Qed.

Lemma nl_free_replace s : nl_free s -> nl_free (Js.replace " " "-" s).
Proof.
  intros Hs.
  destruct (replace_space_cases s) as [[_ ->]|(a & b & -> & _ & ->)]; [done|].
  apply nl_free_app_inv in Hs as [Ha [_ Hb]%nl_free_app_inv].
  by repeat apply nl_free_app.
Qed.

Lemma nl_free_priority (i : Z) : nl_free (Js.index priority_names i).
Proof.
  unfold Js.index, priority_names. destruct (i <? 0); [done|].
  by destruct (Z.to_nat i) as [|[|[|[|[|n]]]]].
Qed.

End StringFacts.

(** ** The rendered block *)

(** Splits a text at the character [c] that follows its first piece. *)
Ltac cut_after c :=
  match goal with
  | |- due_free (?a +:+ _) => apply (due_free_cut a c); [done| |]
  end.

(** Finds a piece of a template among the pieces appended after it. *)
Ltac find_piece :=
  repeat first [ apply includes_prefix | apply includes_app_r ].

Section RendererFacts.

Variable format_date : string -> string.
Variable lookup : gmap string Project.

(** A task whose project is in the lookup is rendered. *)
Lemma transformToMarkdown_resolves t P :
  lookup !! project_id t = Some P ->
  exists out, transformToMarkdown format_date lookup t = inr out.
Proof. intros H. unfold transformToMarkdown, read_project. rewrite H. by eexists. Qed.

Lemma has_elem_of (key : string) (keys : list string) :
  Js.has key keys = true <-> key ∈ keys.
Proof.
  induction keys as [|k keys IH]; cbn [Js.has].
  - split; [done|by intros ?%elem_of_nil].
  - rewrite orb_true_iff, elem_of_cons, IH.
    destruct (String.eqb_spec key k) as [->|Hne]; [by split; left|].
    split; (intros [?|?]; [done|by right]).
Qed.

(** A task whose project is not in the lookup, and is not the name of an
    inherited function either, throws. *)
Lemma transformToMarkdown_throws t :
  lookup !! project_id t = None ->
  Js.has (project_id t) object_prototype_functions = false ->
  exists msg, transformToMarkdown format_date lookup t = inl (TypeError msg).
Proof.
  intros H Hfn. unfold transformToMarkdown, read_project. rewrite H, Hfn.
  destruct (Js.has (project_id t) project_keys && _); [by eexists|].
  destruct (String.eqb (project_id t) "__proto__"); by eexists.
Qed.

(** X20: a task whose project id is not in the lookup and is the name of a
    function that the lookup object inherits is rendered all the same, with
    the name of that function in its project tag: [#project-Object] for the
    project id [constructor]. *)
Theorem inherited_function_is_rendered t :
  lookup !! project_id t = None ->
  Js.has (project_id t) object_prototype_functions = true ->
  exists out,
    transformToMarkdown format_date lookup t = inr out /\
    Js.includes ("#project-" +:+ function_name (project_id t)) out = true /\
    (project_id t = "constructor" -> Js.includes "#project-Object" out = true).
Proof.
  intros H Hfn.
  assert (Js.has (project_id t) project_keys = false /\
          Js.replace " " "-" (function_name (project_id t)) =
          function_name (project_id t)) as [Hkeys Hname].
  { apply has_elem_of in Hfn. unfold object_prototype_functions in Hfn.
    repeat (apply elem_of_cons in Hfn as [->|Hfn]; [by split|]).
    by apply elem_of_nil in Hfn. }
  unfold transformToMarkdown, read_project. rewrite H, Hkeys, Hfn.
  cbn [andb name_of]. rewrite Hname.
  eexists. split; [reflexivity|]. split; [find_piece|].
  intros ->. find_piece.
Qed.

(** C8: a completed task is rendered with the checked marker [- [x]], a
    task that is not completed with the blank marker [- [ ]]; the marker
    opens the block. *)
Theorem checkbox_marker t P :
  lookup !! project_id t = Some P ->
  (is_completed t = true ->
     exists rest, transformToMarkdown format_date lookup t = inr ("- [x] " +:+ rest)) /\
  (is_completed t = false ->
     exists rest, transformToMarkdown format_date lookup t = inr ("- [ ] " +:+ rest)).
Proof.
  intros H. unfold transformToMarkdown, read_project. rewrite H.
  split; intros ->; eexists; reflexivity.
Qed.

(** C3: for a priority [p] from 1 to 4 the block holds [[priority:: L]],
    [L] being the entry at index [p], counted from zero, of
    [none, low, medium, high, highest]: [low] for 1 and [highest] for 4. *)
Theorem priority_annotation t P L :
  lookup !! project_id t = Some P ->
  1 <= priority t <= 4 ->
  ["none"; "low"; "medium"; "high"; "highest"] !! Z.to_nat (priority t) = Some L ->
  exists out,
    transformToMarkdown format_date lookup t = inr out /\
    Js.includes ("[priority:: " +:+ L +:+ "]") out = true /\
    (priority t = 1 -> L = "low") /\
    (priority t = 4 -> L = "highest").
Proof.
  intros H Hp HL. unfold transformToMarkdown, read_project. rewrite H.
  eexists. split; [reflexivity|].
  assert (Js.index priority_names (priority t) = L) as ->.
  { unfold Js.index, priority_names.
    destruct (Z.ltb_spec (priority t) 0); [lia|]. by rewrite HL. }
  split; [find_piece|].
  split; intros E; rewrite E in HL; simpl in HL; congruence.
Qed.

(** C4: the block holds the tag [#project-] followed by the name of the
    task's project in which the first space, and no other, has become a
    hyphen. *)
Theorem project_tag t P :
  lookup !! project_id t = Some P ->
  exists out,
    transformToMarkdown format_date lookup t = inr out /\
    (Js.includes " " (name P) = false ->
       Js.includes ("#project-" +:+ name P) out = true) /\
    (forall a b,
       name P = a +:+ " " +:+ b -> Js.includes " " a = false ->
       Js.includes ("#project-" +:+ a +:+ "-" +:+ b) out = true).
Proof.
  intros H. unfold transformToMarkdown, read_project. rewrite H.
  eexists. split; [reflexivity|]. split.
  - intros Hn. rewrite (replace_no_space _ Hn). find_piece.
  - intros a b -> Ha. rewrite (replace_first_space _ _ Ha). find_piece.
Qed.

(** The block of a task whose texts are free of the due key, the due
    annotation left out. *)
Lemma due_free_block t P :
  Forall due_free (task_texts format_date P t) ->
  due_free
    ("- [" +:+ (if is_completed t then "x" else " ") +:+ "] " +:+ content t
     +:+ " " +:+ Js.join " " (map (fun label => "#" +:+ label) (labels t))
     +:+ " " +:+ ("#project-" +:+ Js.replace " " "-" (name P))
     +:+ " " +:+ ("[created:: " +:+ format_date (created_at t) +:+ "]")
     +:+ " " +:+ ("[priority:: " +:+ Js.index priority_names (priority t) +:+ "]")
     +:+ " " +:+ ("[id:: " +:+ id t +:+ "]")
     +:+ " " +:+ "" +:+ " "
     +:+ match description t with
         | Some d => if Js.truthy d then Js.nl +:+ d +:+ Js.nl else ""
         | None => ""
         end
     +:+ Js.nl
     +:+ Js.join (Js.nl +:+ Js.nl) (map comment_content (comments t))
     +:+ Js.nl).
Proof.
  unfold task_texts. rewrite !Forall_cons, Forall_app.
  intros (Hc & Hn & Hd & Hi & Hdesc & Hl & Hcm).
  assert (forall rest, due_free rest ->
            due_free ("- [" +:+ (if is_completed t then "x" else " ")
                      +:+ "] " +:+ rest)) as Hmark.
  { intros rest Hrest. destruct (is_completed t).
    - by apply (due_free_cut "- [x]" " ").
    - by apply (due_free_cut "- [ ]" " "). }
  apply Hmark.
  cut_after " "%char; [done|].
  cut_after " "%char; [by apply due_free_tags|].
  cut_after " "%char.
  { apply (due_free_cut "#project" "-"); [done..|]. by apply due_free_replace. }
  cut_after " "%char.
  { apply (due_free_cut "[created::" " "); [done..|]. by cut_after "]"%char. }
  cut_after " "%char.
  { apply (due_free_cut "[priority::" " "); [done..|].
    cut_after "]"%char; [apply due_free_priority|done]. }
  cut_after " "%char.
  { apply (due_free_cut "[id::" " "); [done..|]. by cut_after "]"%char. }
  cut_after " "%char; [done|].
  cut_after "010"%char.
  { destruct (description t) as [d|]; [|done]. simpl in Hdesc.
    destruct (Js.truthy d); [|done].
    apply (due_free_cut "" "010"); [done..|]. by cut_after "010"%char. }
  cut_after "010"%char; [by apply due_free_comments|done].
Qed.

(** C5: a task without due date gets no due-date annotation; a task with
    one gets [[due:: D]], [D] being the [datetime] of the due date as the
    date library formats it. Whatever the due date, the rest of the block
    is the same. *)
Theorem due_annotation t P :
  lookup !! project_id t = Some P ->
  exists out,
    transformToMarkdown format_date lookup t = inr out /\
    (due t = None ->
       Forall due_free (task_texts format_date P t) -> due_free out) /\
    (forall d, due t = Some d ->
       Js.includes ("[due:: " +:+ format_date (datetime d) +:+ "]") out = true) /\
    (exists head tail,
       transformToMarkdown format_date lookup (with_due None t) = inr (head +:+ tail) /\
       forall d,
         transformToMarkdown format_date lookup (with_due (Some d) t) =
         inr (head +:+ ("[due:: " +:+ format_date (datetime d) +:+ "]") +:+ tail)).
Proof.
  intros H. unfold transformToMarkdown, read_project.
  cbn [with_due is_completed content labels created_at priority id due
       description comments project_id].
  rewrite H.
  eexists. split; [reflexivity|]. split; [|split].
  - intros -> Htexts. by apply due_free_block.
  - intros d ->. find_piece.
  - exists ("- [" +:+ (if is_completed t then "x" else " ") +:+ "] " +:+ content t
       +:+ " " +:+ Js.join " " (map (fun label => "#" +:+ label) (labels t))
       +:+ " " +:+ ("#project-" +:+ Js.replace " " "-" (name P))
       +:+ " " +:+ ("[created:: " +:+ format_date (created_at t) +:+ "]")
       +:+ " " +:+ ("[priority:: " +:+ Js.index priority_names (priority t) +:+ "]")
       +:+ " " +:+ ("[id:: " +:+ id t +:+ "]") +:+ " ").
    eexists. split; [|intros d]; rewrite !append_assoc; reflexivity.
Qed.

(** C6, as the code has it: the description, when there is one, starts on
    the line right after the checkbox line and one empty line separates it
    from the comments block; the checkbox line is not blank, and it is one
    line, without line feed, when the texts that the task brings into it are;
    without a description, or with an empty one, the line feed before the
    comments block follows the checkbox line at once. *)
Theorem description_block t P :
  lookup !! project_id t = Some P ->
  exists checkbox_line,
    blank checkbox_line = false /\
    (Forall nl_free (line_texts format_date P t) -> nl_free checkbox_line) /\
    transformToMarkdown format_date lookup (without_description t) =
      inr (checkbox_line +:+ Js.nl
           +:+ Js.join (Js.nl +:+ Js.nl) (map comment_content (comments t))
           +:+ Js.nl) /\
    (description t = None \/ description t = Some "" ->
       transformToMarkdown format_date lookup t =
         inr (checkbox_line +:+ Js.nl
              +:+ Js.join (Js.nl +:+ Js.nl) (map comment_content (comments t))
              +:+ Js.nl)) /\
    (forall d, description t = Some d -> Js.truthy d = true ->
       transformToMarkdown format_date lookup t =
         inr (checkbox_line +:+ Js.nl +:+ d +:+ Js.nl +:+ Js.nl
              +:+ Js.join (Js.nl +:+ Js.nl) (map comment_content (comments t))
              +:+ Js.nl) /\
       (Forall nl_free (line_texts format_date P t) -> nl_free d ->
          Js.lines (checkbox_line +:+ Js.nl +:+ d +:+ Js.nl +:+ Js.nl
                    +:+ Js.join (Js.nl +:+ Js.nl) (map comment_content (comments t))
                    +:+ Js.nl) =
          checkbox_line :: d :: ""
            :: Js.lines (Js.join (Js.nl +:+ Js.nl) (map comment_content (comments t))
                         +:+ Js.nl))).
Proof.
  intros H. unfold transformToMarkdown, read_project.
  cbn [without_description is_completed content labels created_at priority
       id due description comments project_id].
  rewrite H.
  set (checkbox_line :=
         "- [" +:+ (if is_completed t then "x" else " ") +:+ "] " +:+ content t
         +:+ " " +:+ Js.join " " (map (fun label => "#" +:+ label) (labels t))
         +:+ " " +:+ ("#project-" +:+ Js.replace " " "-" (name P))
         +:+ " " +:+ ("[created:: " +:+ format_date (created_at t) +:+ "]")
         +:+ " " +:+ ("[priority:: " +:+ Js.index priority_names (priority t) +:+ "]")
         +:+ " " +:+ ("[id:: " +:+ id t +:+ "]")
         +:+ " " +:+ match due t with
                     | Some d => "[due:: " +:+ format_date (datetime d) +:+ "]"
                     | None => ""
                     end +:+ " ").
  assert (Forall nl_free (line_texts format_date P t) -> nl_free checkbox_line)
    as Hline.
  { unfold line_texts. rewrite !Forall_cons, Forall_app.
    intros (Hc & Hn & Hd & Hi & Hdue & Hl). unfold checkbox_line.
    repeat apply nl_free_app;
      solve [ done
            | by destruct (is_completed t)
            | by apply nl_free_tags
            | by apply nl_free_replace
            | apply nl_free_priority
            | destruct (due t) as [d|]; [|done];
              apply Forall_cons in Hdue as [Hdue _]; by repeat apply nl_free_app ]. }
  exists checkbox_line. split; [done|]. split; [done|]. split; [|split].
  - unfold checkbox_line. rewrite !append_assoc. reflexivity.
  - unfold checkbox_line. intros [->| ->]; rewrite !append_assoc; reflexivity.
  - intros d -> ->. split.
    + unfold checkbox_line. rewrite !append_assoc. reflexivity.
    + intros Hl Hd. rewrite lines_first by by apply Hline.
      rewrite lines_first by done. reflexivity.
Qed.

End RendererFacts.

Lemma inherited_function_is_rendered_witness :
  lookup1 !! project_id t8 = None /\
  Js.has (project_id t8) object_prototype_functions = true /\
  exists out,
    transformToMarkdown utc_day lookup1 t8 = inr out /\
    Js.includes "#project-Object" out = true.
Proof.
  split; [reflexivity|]. split; [reflexivity|].
  destruct (inherited_function_is_rendered utc_day lookup1 t8 eq_refl eq_refl)
    as (out & Hout & _ & Hobject).
  exists out. split; [exact Hout|]. apply Hobject. reflexivity.
Defined.

Lemma checkbox_marker_witness :
  lookup1 !! project_id t2 = Some p1 /\
  exists rest, transformToMarkdown utc_day lookup1 t2 = inr ("- [x] " +:+ rest).
Proof.
  split; [reflexivity|].
  apply (proj1 (checkbox_marker utc_day lookup1 t2 p1 eq_refl)). reflexivity.
Defined.

Lemma priority_annotation_witness :
  lookup1 !! project_id t3 = Some p1 /\
  1 <= priority t3 <= 4 /\
  exists out,
    transformToMarkdown utc_day lookup1 t3 = inr out /\
    Js.includes "[priority:: highest]" out = true.
Proof.
  split; [reflexivity|]. split; [simpl; lia|].
  destruct (priority_annotation utc_day lookup1 t3 p1 "highest")
    as (out & Hout & Hin & _); [reflexivity|simpl; lia|reflexivity|].
  exists out. split; [exact Hout|exact Hin].
Defined.

Lemma project_tag_witness :
  lookup1 !! project_id t5 = Some p2 /\
  exists out,
    transformToMarkdown utc_day lookup1 t5 = inr out /\
    Js.includes "#project-Home-and Garden" out = true.
Proof.
  split; [reflexivity|].
  destruct (project_tag utc_day lookup1 t5 p2) as (out & Hout & _ & Hin);
    [reflexivity|].
  exists out. split; [exact Hout|].
  apply (Hin "Home" "and Garden"); reflexivity.
Defined.

Lemma due_annotation_witness :
  lookup1 !! project_id t3 = Some p1 /\
  exists out,
    transformToMarkdown utc_day lookup1 t3 = inr out /\
    Js.includes "[due:: 2024-02-01]" out = true.
Proof.
  split; [reflexivity|].
  destruct (due_annotation utc_day lookup1 t3 p1) as (out & Hout & _ & Hin & _);
    [reflexivity|].
  exists out. split; [exact Hout|]. exact (Hin _ eq_refl).
Defined.

Lemma description_block_witness :
  lookup1 !! project_id t2 = Some p1 /\
  exists checkbox_line,
    transformToMarkdown utc_day lookup1 t2 =
    inr (checkbox_line +:+ Js.nl +:+ "Details" +:+ Js.nl +:+ Js.nl
         +:+ Js.join (Js.nl +:+ Js.nl) (map comment_content (comments t2))
         +:+ Js.nl) /\
    blank checkbox_line = false /\ nl_free checkbox_line.
Proof.
  split; [reflexivity|].
  destruct (description_block utc_day lookup1 t2 p1)
    as (checkbox_line & Hblank & Hline & _ & _ & Hd); [reflexivity|].
  exists checkbox_line. split; [|split; [exact Hblank|]].
  - exact (proj1 (Hd "Details" eq_refl eq_refl)).
  - apply Hline. repeat constructor.
Defined.

(** A task without due date whose texts are free of the due key: no due
    key in its block. *)
Example no_due_annotation_t1 :
  exists out, transformToMarkdown utc_day lookup1 t1 = inr out /\ due_free out.
Proof.
  destruct (due_annotation utc_day lookup1 t1 p1) as (out & Hout & Hfree & _);
    [reflexivity|].
  exists out. split; [done|]. apply Hfree; [done|]. by repeat constructor.
Qed.

(** The due key that a task carries in its own title is copied with it. *)
Example due_key_from_content :
  exists out, transformToMarkdown utc_day lookup1 t6 = inr out /\
              Js.includes due_key out = true.
Proof. eexists. split; [vm_compute; reflexivity|]. vm_compute. reflexivity. Qed.

Example framed_by_blank_lines_positive :
  framed_by_blank_lines "Details"
    (Js.lines ("- [ ] x" +:+ Js.nl +:+ Js.nl +:+ "Details" +:+ Js.nl +:+ Js.nl)) = true.
Proof. reflexivity. Qed.

(** ** The end-to-end scenario of the specification *)

(** C1, as the specification states it, fails: the block of the scenario is
    not the one with a single space after the id. *)
Lemma scenario_single_space_fails :
  transformToMarkdown utc_day (index_projects [p1] ∅) t1
  <> inr scenario_block_of_spec.
Proof. vm_compute. discriminate. Qed.

(** C1, as the code has it: the task of the scenario, under the lookup built
    from the one project of the scenario, is rendered with two spaces
    between the id and the line break. *)
Theorem scenario_renders (format_date : string -> string) (P : Project) (t : Task) :
  format_date "2024-01-05T10:00:00Z" = "2024-01-05" ->
  project_ident P = "p1" -> name P = "Work Stuff" ->
  id t = "t1" -> content t = "Write report" -> is_completed t = false ->
  priority t = 3 -> labels t = ["urgent"] -> project_id t = "p1" ->
  created_at t = "2024-01-05T10:00:00Z" -> due t = None ->
  description t = None -> comments t = [] ->
  transformToMarkdown format_date (index_projects [P] ∅) t = inr scenario_block.
Proof.
  intros Hfmt HP Hname Hid Hcontent Hdone Hprio Hlabels Hproj Hcreated Hdue
         Hdesc Hcomments.
  unfold transformToMarkdown, read_project, index_projects.
  rewrite Hproj, Hcreated, Hfmt, Hid, Hcontent, Hdone, Hprio, Hlabels, Hdue,
    Hdesc, Hcomments.
  cbn [foldl]. rewrite HP, lookup_insert_eq. cbn [name_of]. rewrite Hname.
  reflexivity.
Qed.

Lemma scenario_renders_witness :
  transformToMarkdown utc_day (index_projects [p1] ∅) t1 = inr scenario_block.
Proof. by apply scenario_renders. Defined.

(** C6, as the specification states it, fails: the description of [t2] has
    the checkbox line right above it, not a blank line. *)
Lemma description_not_framed :
  exists out,
    transformToMarkdown utc_day lookup1 t2 = inr out /\
    framed_by_blank_lines "Details" (Js.lines out) = false.
Proof. eexists. split; [vm_compute; reflexivity|]. vm_compute. reflexivity. Qed.

(** ** The pipeline *)

Section PipelineFacts.

Implicit Types (w : World) (m : Machine) (t : Task) (task : ref).

Lemma set_comments_id t : set_comments (comments t) t = t.
Proof. by destruct t. Qed.

Lemma without_comments_set cs t :
  without_comments (set_comments cs t) = without_comments t.
Proof. reflexivity. Qed.

Lemma without_comments_alter cs task (ts : list Task) :
  without_comments <$> alter (set_comments cs) task ts = without_comments <$> ts.
Proof.
  revert task. induction ts as [|t ts IH]; intros [|task]; [done..|].
  change (alter (set_comments cs) (S task) (t :: ts))
    with (t :: alter (set_comments cs) task ts).
  rewrite !fmap_cons. f_equal. apply IH.
Qed.

(** Requests are neither insertions nor log messages. *)
Lemma insertions_request m target method body auth :
  insertions (trace (emit [HttpRequest target method body auth] m)) =
  insertions (trace m).
Proof. unfold insertions. simpl. by rewrite omap_app, app_nil_r. Qed.

Lemma logged_request m target method body auth :
  logged (trace (emit [HttpRequest target method body auth] m)) = logged (trace m).
Proof. unfold logged. simpl. by rewrite omap_app, app_nil_r. Qed.

Lemma silent_refl m : silent m m.
Proof. done. Qed.

Lemma silent_trans m1 m2 m3 : silent m1 m2 -> silent m2 m3 -> silent m1 m3.
Proof. intros (?&?&?) (?&?&?). repeat split; congruence. Qed.

Lemma silent_request m target method body auth :
  silent m (emit [HttpRequest target method body auth] m).
Proof.
  repeat split; [apply insertions_request | apply logged_request].
Qed.

Lemma loadProjects_silent w m : silent m (loadProjects w m).2.
Proof.
  unfold loadProjects, makeToDoistRequest.
  destruct (projects_response w); apply silent_request.
Qed.

Lemma allTasks_silent w m : silent m (allTasks w m).2.
Proof.
  unfold allTasks, makeToDoistRequest.
  destruct (tasks_response w); apply silent_request.
Qed.

(** The requests of the enrichment: one per reference, none touching the
    task objects or the lookup. *)
Lemma enrichTasksWithComments_spec w tasks m :
  Forall (fun task => is_Some (store m !! task)) tasks ->
  exists pending m',
    enrichTasksWithComments w tasks m = (inr pending, m') /\
    pending.*1 = tasks /\
    Forall (fun p => exists t, store m !! p.1 = Some t /\
                               p.2 = settled (comments_response w (id t))) pending /\
    store m' = store m /\ projects m' = projects m /\ silent m m'.
Proof.
  revert m. induction tasks as [|task tasks IH]; intros m Hrefs.
  - exists [], m. by repeat split.
  - apply Forall_cons in Hrefs as [[t Ht] Hrefs].
    cbn [enrichTasksWithComments]. unfold request_comments, makeToDoistRequest.
    rewrite Ht.
    destruct (IH (emit [HttpRequest (comments_url (id t)) (method_name GET) None
                          ("Bearer " +:+ todoistApiKey m)] m) Hrefs)
      as (pending & m' & -> & Hfst & Hall & Hstore & Hprojects & Hsilent).
    eexists _, m'. split; [reflexivity|].
    split; [by rewrite fmap_cons, Hfst|].
    split; [|split; [done|split; [done|]]].
    + apply Forall_cons. split; [by exists t|done].
    + eapply silent_trans; [apply silent_request|done].
Qed.

(** The order of arrival rearranges the pending requests, no more. *)
Lemma insert_by_arrival_perm {A : Type} (x : nat * A) queue :
  insert_by_arrival x queue ≡ₚ x :: queue.
Proof.
  induction queue as [|y queue IH]; [done|]. simpl.
  destruct (x.1 <=? y.1)%nat; [done|].
  by rewrite IH, Permutation_swap.
Qed.

Lemma by_arrival_perm {A : Type} w (pending : list A) :
  by_arrival w pending ≡ₚ pending.
Proof.
  unfold by_arrival.
  assert (forall l : list (nat * A), foldr insert_by_arrival [] l ≡ₚ l) as Hsort.
  { induction l as [|x l IH]; [done|]. simpl.
    by rewrite insert_by_arrival_perm, IH. }
  rewrite Hsort, fmap_imap. clear Hsort.
  generalize (arrival w). induction pending as [|p pending IH]; intros f; [done|].
  rewrite imap_cons. simpl. by rewrite IH.
Qed.

(** The callbacks write comments and nothing else. *)
Lemma settle_frame queue m :
  trace (settle queue m).2 = trace m /\
  projects (settle queue m).2 = projects m /\
  todoistApiKey (settle queue m).2 = todoistApiKey m /\
  without_comments <$> store (settle queue m).2 = without_comments <$> store m.
Proof.
  revert m. induction queue as [|[task [cs|e]] queue IH]; intros m; simpl; [done| |done].
  destruct (IH (attach_comments task cs m)) as (-> & -> & -> & ->).
  repeat split. simpl. apply without_comments_alter.
Qed.

Lemma settle_rejected queue m task e :
  (task, Rejected e) ∈ queue ->
  exists e' task', (settle queue m).1 = Some e' /\ (task', Rejected e') ∈ queue.
Proof.
  revert m. induction queue as [|[task0 [cs|e0]] queue IH]; intros m Hin.
  - by apply elem_of_nil in Hin.
  - apply elem_of_cons in Hin as [?|Hin]; [done|]. simpl.
    destruct (IH (attach_comments task0 cs m) Hin) as (e' & task' & -> & Hin').
    exists e', task'. split; [done|]. by apply list_elem_of_further.
  - exists e0, task0. split; [done|]. apply list_elem_of_here.
Qed.

Lemma settle_resolved queue m :
  Forall (fun p => exists cs, p.2 = Resolved cs) queue -> (settle queue m).1 = None.
Proof.
  revert m. induction queue as [|[task answer] queue IH]; intros m Hall; [done|].
  apply Forall_cons in Hall as [[cs Hcs] Hall]. simpl in Hcs. subst. simpl.
  by apply IH.
Qed.

Lemma Promise_all_frame w pending m :
  trace (Promise_all w pending m).2 = trace m /\
  projects (Promise_all w pending m).2 = projects m /\
  todoistApiKey (Promise_all w pending m).2 = todoistApiKey m /\
  without_comments <$> store (Promise_all w pending m).2 = without_comments <$> store m.
Proof.
  unfold Promise_all.
  pose proof (settle_frame (by_arrival w pending) m) as H.
  by destruct (settle (by_arrival w pending) m) as [[e|] m'].
Qed.

(** One rejection rejects the join, with the reason of a rejected request. *)
Lemma Promise_all_rejected w pending m task e :
  (task, Rejected e) ∈ pending ->
  exists e' task',
    (Promise_all w pending m).1 = Rejected e' /\ (task', Rejected e') ∈ pending.
Proof.
  intros Hin. rewrite <- (by_arrival_perm w) in Hin.
  destruct (settle_rejected _ m _ _ Hin) as (e' & task' & Hsettle & Hin').
  exists e', task'. rewrite (by_arrival_perm w) in Hin'. split; [|done].
  unfold Promise_all.
  by destruct (settle (by_arrival w pending) m) as [[e0|] m']; simplify_eq/=.
Qed.

Lemma Promise_all_resolved w pending m :
  Forall (fun p => exists cs, p.2 = Resolved cs) pending ->
  (Promise_all w pending m).1 = Resolved pending.*1.
Proof.
  intros Hall. rewrite <- (by_arrival_perm w) in Hall.
  pose proof (settle_resolved _ m Hall) as Hsettle. unfold Promise_all.
  by destruct (settle (by_arrival w pending) m) as [[e0|] m']; simplify_eq/=.
Qed.

Lemma Promise_all_inv w pending m tasks :
  (Promise_all w pending m).1 = Resolved tasks -> tasks = pending.*1.
Proof.
  unfold Promise_all.
  destruct (settle (by_arrival w pending) m) as [[e0|] m']; naive_solver.
Qed.

(** Once the projects and the tasks are fetched, [loadData] is the join of
    one comment request per task. *)
Lemma loadData_enrichment w m ps ts :
  projects_response w = inr ps ->
  tasks_response w = inr ts ->
  exists pending m3,
    loadData w m = Promise_all w pending m3 /\
    pending.*1 = seq 0 (length ts) /\
    Forall (fun p => exists t, ts !! p.1 = Some t /\
                               p.2 = settled (comments_response w (id t))) pending /\
    store m3 = ts /\
    projects m3 = index_projects ps (projects m) /\
    silent m m3.
Proof.
  intros Hps Hts.
  unfold loadData, loadProjects, allTasks, makeToDoistRequest.
  rewrite Hps, Hts. cbn [settled].
  set (m1 := set_projects _ _). set (m2 := set_store _ _).
  destruct (enrichTasksWithComments_spec w (seq 0 (length ts)) m2)
    as (pending & m3 & -> & Hfst & Hall & Hstore & Hprojects & Hsilent).
  { apply Forall_forall. intros task [_ Hlt]%elem_of_seq.
    by apply lookup_lt_is_Some. }
  exists pending, m3. do 5 (split; [done|]).
  eapply silent_trans; [|exact Hsilent].
  eapply (silent_trans _ m1); [apply (silent_request m)|].
  apply (silent_request m1).
Qed.

(** [loadData] inserts nothing and logs nothing, however it ends. *)
Lemma loadData_silent w m : silent m (loadData w m).2.
Proof.
  destruct (projects_response w) as [e|ps] eqn:Hps.
  { unfold loadData, loadProjects, makeToDoistRequest. rewrite Hps.
    apply silent_request. }
  destruct (tasks_response w) as [e|ts] eqn:Hts.
  { unfold loadData, loadProjects, allTasks, makeToDoistRequest.
    rewrite Hps, Hts. cbn [settled].
    set (m1 := set_projects _ _).
    eapply (silent_trans _ m1); [apply (silent_request m)|].
    apply (silent_request m1). }
  destruct (loadData_enrichment w m ps ts Hps Hts)
    as (pending & m3 & -> & _ & _ & _ & _ & Hsilent).
  eapply silent_trans; [done|].
  destruct (Promise_all_frame w pending m3) as (Htr & _ & Hkey & _).
  unfold silent. by rewrite Htr, Hkey.
Qed.

(** What [loadData] resolves to: a reference per fetched task, the lookup
    of the fetched projects, and the fetched tasks up to their comments. *)
Lemma loadData_resolved w m ps ts tasks m' :
  projects_response w = inr ps ->
  tasks_response w = inr ts ->
  loadData w m = (Resolved tasks, m') ->
  tasks = seq 0 (length ts) /\
  projects m' = index_projects ps (projects m) /\
  without_comments <$> store m' = without_comments <$> ts.
Proof.
  intros Hps Hts Hload.
  destruct (loadData_enrichment w m ps ts Hps Hts)
    as (pending & m3 & E & Hfst & _ & Hstore & Hprojects & _).
  rewrite E in Hload.
  destruct (Promise_all_frame w pending m3) as (_ & Hp & _ & Hst).
  rewrite Hload in Hp, Hst. simpl in Hp, Hst.
  split; [|by rewrite Hp, Hst, Hstore].
  rewrite <- Hfst. apply (Promise_all_inv w pending m3). by rewrite Hload.
Qed.

Lemma loadData_resolves w m ps ts :
  projects_response w = inr ps ->
  tasks_response w = inr ts ->
  (forall t, t ∈ ts -> exists cs, comments_response w (id t) = inr cs) ->
  exists tasks, (loadData w m).1 = Resolved tasks.
Proof.
  intros Hps Hts Hok.
  destruct (loadData_enrichment w m ps ts Hps Hts)
    as (pending & m3 & -> & _ & Hall & _).
  eexists. apply Promise_all_resolved.
  eapply Forall_impl; [exact Hall|]. intros [task answer] (t & Ht & ->).
  destruct (Hok t) as [cs ->]; [by eapply list_elem_of_lookup_2|].
  by exists cs.
Qed.

Variable format_date : string -> string.

(** The renderer throws nothing but a [TypeError]. *)
Lemma render_error m task e :
  render format_date m task = inl e -> exists msg, e = TypeError msg.
Proof.
  unfold render, transformToMarkdown.
  destruct (store m !! task) as [t|]; [|intros [= <-]; by eexists].
  destruct (read_project (projects m) (project_id t)); cbn [name_of];
    intros [= <-]; by eexists.
Qed.

(** A map over an array with an element that throws, throws. *)
Lemma map_throwing_throws {A B : Type} (f : A -> Error + B) l x e :
  x ∈ l -> f x = inl e ->
  exists e' y, map_throwing f l = inl e' /\ y ∈ l /\ f y = inl e'.
Proof.
  intros Hin Hx. induction l as [|z l IH]; [by apply elem_of_nil in Hin|].
  simpl. destruct (f z) as [e'|b] eqn:Hz.
  - exists e', z. split; [done|]. split; [apply list_elem_of_here|done].
  - apply elem_of_cons in Hin as [->|Hin]; [congruence|].
    destruct (IH Hin) as (e' & y & -> & Hy & Hfy).
    exists e', y. split; [done|]. split; [by apply list_elem_of_further|done].
Qed.

(** A rejected import has inserted nothing. *)
Lemma execute_rejected_inserts_nothing w m e m' :
  execute format_date w m = (Rejected e, m') ->
  insertions (trace m') = insertions (trace m).
Proof.
  unfold execute. pose proof (loadData_silent w m) as (_ & Hins & _).
  destruct (loadData w m) as [[tasks|e0] m1]; simpl in Hins.
  - destruct (map_throwing _ tasks); [|done].
    intros [= _ <-]. rewrite <- Hins. unfold insertions. simpl.
    by rewrite omap_app, app_nil_r.
  - by intros [= _ <-].
Qed.

(** C10: enriching one task sets the comments of that task object to the
    fetched list and returns the same reference; its other fields, the
    other task objects and the lookup stay as they were. *)
Theorem withComments_frame w m task t cs :
  store m !! task = Some t ->
  comments_response w (id t) = inr cs ->
  exists m' t',
    withComments w task m = (Resolved task, m') /\
    store m' !! task = Some t' /\
    comments t' = cs /\
    (id t' = id t /\ content t' = content t /\ description t' = description t /\
     is_completed t' = is_completed t /\ created_at t' = created_at t /\
     due t' = due t /\ priority t' = priority t /\ labels t' = labels t /\
     project_id t' = project_id t) /\
    without_comments t' = without_comments t /\
    (forall other, other <> task -> store m' !! other = store m !! other) /\
    projects m' = projects m.
Proof.
  intros Ht Hcs. unfold withComments, request_comments, makeToDoistRequest.
  rewrite Ht, Hcs. cbn [settled then_attach].
  eexists _, (set_comments cs t). split; [reflexivity|].
  cbn [attach_comments set_store store emit projects].
  split; [by rewrite list_lookup_alter_eq, Ht|].
  do 3 (split; [done|]). split; [|done].
  intros other Hne. by rewrite list_lookup_alter_ne.
Qed.

(** C7: when the comment request of one task fails, [loadData] is rejected
    with the failure of a comment request, so that its caller gets no task
    list, enriched or not: the import is rejected for the same reason and
    has neither inserted nor logged anything. *)
Theorem comment_failure_fails_all w m ps ts t e :
  projects_response w = inr ps ->
  tasks_response w = inr ts ->
  t ∈ ts ->
  comments_response w (id t) = inl e ->
  exists e' t' m',
    t' ∈ ts /\ comments_response w (id t') = inl e' /\
    loadData w m = (Rejected e', m') /\
    execute format_date w m = (Rejected e', m') /\
    silent m m'.
Proof.
  intros Hps Hts Hin He.
  destruct (loadData_enrichment w m ps ts Hps Hts)
    as (pending & m3 & Hload & Hfst & Hall & _).
  apply list_elem_of_lookup in Hin as [task Htask].
  assert ((task, Rejected e) ∈ pending) as Hrej.
  { assert (task ∈ pending.*1) as Href.
    { rewrite Hfst. apply elem_of_seq. apply lookup_lt_Some in Htask. lia. }
    apply list_elem_of_fmap in Href as ([task0 answer] & -> & Hp).
    rewrite Forall_forall in Hall.
    destruct (Hall _ Hp) as (t0 & Ht0 & Hanswer). simpl in Ht0, Hanswer, Htask.
    rewrite Htask in Ht0. injection Ht0 as <-.
    by rewrite He in Hanswer; subst answer. }
  destruct (Promise_all_rejected w pending m3 _ _ Hrej) as (e' & task' & Hout & Hin').
  rewrite Forall_forall in Hall.
  destruct (Hall _ Hin') as (t' & Ht' & Hanswer). simpl in Ht', Hanswer.
  exists e', t', (loadData w m).2.
  split; [by eapply list_elem_of_lookup_2|].
  split; [by destruct (comments_response w (id t')); simplify_eq/=|].
  assert (loadData w m = (Rejected e', (loadData w m).2)) as E.
  { rewrite Hload at 1. rewrite <- Hout, <- Hload. by destruct (loadData w m). }
  split; [done|]. split; [|apply loadData_silent].
  unfold execute. by rewrite E.
Qed.

(** C2, as the code has it: a fetched task whose project is not in the
    lookup built from the fetched projects, and is not the name of a function
    that the lookup object inherits from [Object.prototype] either, makes the
    renderer throw a [TypeError]; the import is rejected and nothing is
    inserted, for no task at all; when every comment request succeeds the
    rejection is that of the renderer, a [TypeError]. *)
Theorem missing_project_fails w m ps ts t :
  projects_response w = inr ps ->
  tasks_response w = inr ts ->
  t ∈ ts ->
  index_projects ps (projects m) !! project_id t = None ->
  Js.has (project_id t) object_prototype_functions = false ->
  (forall cs, exists msg,
     transformToMarkdown format_date (index_projects ps (projects m))
                         (set_comments cs t) = inl (TypeError msg)) /\
  exists e m',
    execute format_date w m = (Rejected e, m') /\
    insertions (trace m') = insertions (trace m) /\
    ((forall t', t' ∈ ts -> exists cs, comments_response w (id t') = inr cs) ->
     exists msg, e = TypeError msg).
Proof.
  intros Hps Hts Hin Hmiss Hfn. split.
  { intros cs. by apply transformToMarkdown_throws. }
  assert (exists e m', execute format_date w m = (Rejected e, m') /\
            ((forall t', t' ∈ ts -> exists cs, comments_response w (id t') = inr cs) ->
             exists msg, e = TypeError msg)) as (e & m' & Hexec & Hkind).
  { unfold execute. destruct (loadData w m) as [[tasks|e] m1] eqn:Hload.
    - destruct (loadData_resolved w m ps ts tasks m1 Hps Hts Hload)
        as (-> & Hprojects & Hstore).
      apply list_elem_of_lookup in Hin as [task Htask].
      assert (exists t1, store m1 !! task = Some t1 /\ project_id t1 = project_id t)
        as (t1 & Ht1 & Hpid).
      { apply (f_equal (fun l => l !! task)) in Hstore.
        rewrite !list_lookup_fmap, Htask in Hstore.
        destruct (store m1 !! task) as [t1|]; [|done].
        exists t1. split; [done|].
        assert (without_comments t1 = without_comments t) as Hsame
          by (cbn [fmap option_fmap option_map] in Hstore; congruence).
        by apply (f_equal project_id) in Hsame. }
      set (m2 := emit _ m1).
      destruct (transformToMarkdown_throws format_date
                  (index_projects ps (projects m)) t1) as [msg Hthrows];
        [by rewrite Hpid..|].
      destruct (map_throwing_throws (render format_date m2) (seq 0 (length ts)) task
                  (TypeError msg))
        as (e' & task' & -> & _ & Hthrown).
      { apply elem_of_seq. apply lookup_lt_Some in Htask. lia. }
      { unfold render. cbn [m2 emit store projects]. by rewrite Ht1, Hprojects. }
      exists e', m2. split; [done|]. intros _. by eapply render_error.
    - exists e, m1. split; [done|]. intros Hok.
      destruct (loadData_resolves w m ps ts Hps Hts Hok) as [tasks Hres].
      by rewrite Hload in Hres. }
  exists e, m'. split; [done|]. split; [|done].
  by eapply execute_rejected_inserts_nothing.
Qed.

End PipelineFacts.

(** C2, as the specification states it, fails: the project id [constructor]
    has no entry in the lookup of the fetched projects, and yet the task is
    rendered, under the tag of the function that the lookup object inherits,
    and the import resolves and inserts its block. *)
Lemma unlisted_project_renders :
  index_projects [p1; p2] (projects (new_command "key")) !! project_id t8 = None /\
  transformToMarkdown utc_day (index_projects [p1; p2] ∅) t8 =
    inr ("- [ ] Stray  #project-Object [created:: 2024-01-12] [priority:: low] [id:: t8]  "
         +:+ Js.nl +:+ Js.nl) /\
  exists m',
    execute utc_day w_constructor (new_command "key") = (Resolved tt, m') /\
    insertions (trace m') =
      ["- [ ] Stray  #project-Object [created:: 2024-01-12] [priority:: low] [id:: t8]  "
       +:+ Js.nl +:+ Js.nl].
Proof.
  split; [reflexivity|]. split; [vm_compute; reflexivity|].
  eexists. split; vm_compute; reflexivity.
Qed.

(** C9, as the specification states it, fails: the same task under the same
    lookup is rendered differently on a host at UTC and on a host eleven
    hours west of it, where the task was created the day before. *)
Lemma rendering_depends_on_host :
  transformToMarkdown (host_day 0) lookup1 t1
  <> transformToMarkdown (host_day (-660)) lookup1 t1.
Proof. vm_compute. discriminate. Qed.

(** C9, as the code has it: the block of a task is a function of the task
    record, of the lookup and of what the date library of the host gives for
    the date of creation and for the [datetime] of the due date, and of
    nothing else that the host or the command object holds: two renderings
    of the same record under the same lookup, on hosts that format these two
    dates alike, give the same block; and the rendering of an import leaves
    the task objects and the lookup as the enrichment left them. *)
Theorem rendering_is_a_function
    (format_date format_date' : string -> string)
    (lookup : gmap string Project) (t : Task) :
  format_date (created_at t) = format_date' (created_at t) ->
  (forall d, due t = Some d -> format_date (datetime d) = format_date' (datetime d)) ->
  transformToMarkdown format_date lookup t = transformToMarkdown format_date' lookup t /\
  (forall m m' task task',
     store m !! task = Some t -> store m' !! task' = Some t ->
     projects m = lookup -> projects m' = lookup ->
     render format_date m task = render format_date' m' task') /\
  (forall w m0 tasks m1,
     loadData w m0 = (Resolved tasks, m1) ->
     store (execute format_date w m0).2 = store m1 /\
     projects (execute format_date w m0).2 = projects m1).
Proof.
  intros Hcreated Hdue.
  assert (transformToMarkdown format_date lookup t =
          transformToMarkdown format_date' lookup t) as Hsame.
  { unfold transformToMarkdown. rewrite Hcreated.
    destruct (due t) as [d|]; [|done]. by rewrite (Hdue d eq_refl). }
  split; [done|]. split.
  - intros m m' task task' Ht Ht' Hm Hm'. unfold render.
    by rewrite Ht, Ht', Hm, Hm'.
  - intros w m0 tasks m1 Hload. unfold execute. rewrite Hload.
    by destruct (map_throwing _ tasks).
Qed.

Lemma rendering_is_a_function_witness :
  utc_day (created_at t3) = host_day 0 (created_at t3) /\
  transformToMarkdown utc_day lookup1 t3 = transformToMarkdown (host_day 0) lookup1 t3.
Proof.
  split; [reflexivity|].
  apply (rendering_is_a_function utc_day (host_day 0) lookup1 t3); [reflexivity|].
  intros d [= <-]. reflexivity.
Defined.

(** The days of the hosts, around midnight and at the end of February. *)
Example host_day_examples :
  host_day 0 "2024-01-05T10:00:00Z" = "2024-01-05" /\
  host_day (-660) "2024-01-05T10:00:00Z" = "2024-01-04" /\
  host_day 840 "2024-01-05T10:00:00Z" = "2024-01-06" /\
  host_day (-60) "2024-03-01T00:30:00Z" = "2024-02-29" /\
  host_day 120 "2023-12-31T22:00:00.000000Z" = "2024-01-01" /\
  host_day 0 "tomorrow" = "Invalid date".
Proof. repeat split; reflexivity. Qed.

Lemma withComments_frame_witness :
  store (set_store [t1; t2] (new_command "key")) !! 0%nat = Some t1 /\
  comments_response w_ok (id t1) =
    inr [mkComment "hello" "c1" "2024-01-05T11:00:00Z" "t1"] /\
  exists m',
    withComments w_ok 0%nat (set_store [t1; t2] (new_command "key")) = (Resolved 0%nat, m').
Proof.
  split; [reflexivity|]. split; [reflexivity|].
  destruct (withComments_frame w_ok (set_store [t1; t2] (new_command "key")) 0%nat t1
              [mkComment "hello" "c1" "2024-01-05T11:00:00Z" "t1"])
    as (m' & t' & Hrun & _); [reflexivity|reflexivity|].
  exists m'. exact Hrun.
Defined.

Lemma comment_failure_fails_all_witness :
  projects_response w_comment_failure = inr [p1; p2] /\
  tasks_response w_comment_failure = inr [t1; t2] /\
  t2 ∈ [t1; t2] /\
  comments_response w_comment_failure (id t2) =
    inl (RequestError "Request failed, status 500") /\
  exists e m',
    loadData w_comment_failure (new_command "key") = (Rejected e, m') /\
    execute utc_day w_comment_failure (new_command "key") = (Rejected e, m').
Proof.
  split; [reflexivity|]. split; [reflexivity|].
  split; [apply list_elem_of_further, list_elem_of_here|]. split; [reflexivity|].
  destruct (comment_failure_fails_all utc_day w_comment_failure (new_command "key")
              [p1; p2] [t1; t2] t2 (RequestError "Request failed, status 500"))
    as (e & t' & m' & _ & _ & Hload & Hexec & _);
    [reflexivity|reflexivity|apply list_elem_of_further, list_elem_of_here|reflexivity|].
  exists e, m'. split; [exact Hload|exact Hexec].
Defined.

Lemma missing_project_fails_witness :
  projects_response w_orphan = inr [p1; p2] /\
  tasks_response w_orphan = inr [t1; t4] /\
  t4 ∈ [t1; t4] /\
  index_projects [p1; p2] (projects (new_command "key")) !! project_id t4 = None /\
  Js.has (project_id t4) object_prototype_functions = false /\
  exists e m',
    execute utc_day w_orphan (new_command "key") = (Rejected e, m') /\
    insertions (trace m') = insertions (trace (new_command "key")).
Proof.
  split; [reflexivity|]. split; [reflexivity|].
  split; [apply list_elem_of_further, list_elem_of_here|]. split; [reflexivity|].
  split; [reflexivity|].
  destruct (missing_project_fails utc_day w_orphan (new_command "key")
              [p1; p2] [t1; t4] t4)
    as (_ & e & m' & Hexec & Hins & _);
    [reflexivity|reflexivity|apply list_elem_of_further, list_elem_of_here
    |reflexivity|reflexivity|].
  exists e, m'. split; [exact Hexec|exact Hins].
Defined.

(** ** The pipeline on concrete services *)

(** Every request answered: one insertion, of the two blocks and the
    separator between them. *)
Example import_inserts_once :
  exists m',
    execute utc_day w_ok (new_command "key") = (Resolved tt, m') /\
    insertions (trace m') =
      ["- [ ] Write report #urgent #project-Work-Stuff [created:: 2024-01-05] [priority:: high] [id:: t1]  "
       +:+ Js.nl +:+ "hello" +:+ Js.nl +:+ Js.nl +:+ "---" +:+ Js.nl
       +:+ "- [x] Second  #project-Work-Stuff [created:: 2024-01-06] [priority:: low] [id:: t2]  "
       +:+ Js.nl +:+ "Details" +:+ Js.nl +:+ Js.nl +:+ Js.nl] /\
    logged (trace m') = ["Importing all tasks"].
Proof. eexists. split; [vm_compute; reflexivity|]. split; vm_compute; reflexivity. Qed.

(** The comments of the second task fail: the request error rejects the
    import before anything is logged or inserted. *)
Example import_rejected_by_comments :
  exists m',
    execute utc_day w_comment_failure (new_command "key") =
      (Rejected (RequestError "Request failed, status 500"), m') /\
    insertions (trace m') = [] /\ logged (trace m') = [].
Proof. eexists. split; [vm_compute; reflexivity|]. split; vm_compute; reflexivity. Qed.

(** A task of an unlisted project: the import is rejected by the renderer,
    after the log message and before any insertion. *)
Example import_rejected_by_renderer :
  exists m',
    execute utc_day w_orphan (new_command "key") =
      (Rejected (TypeError "Cannot read properties of undefined (reading 'name')"), m') /\
    insertions (trace m') = [] /\ logged (trace m') = ["Importing all tasks"].
Proof. eexists. split; [vm_compute; reflexivity|]. split; vm_compute; reflexivity. Qed.

(** ** The lookup of the projects *)

Section LookupFacts.

Implicit Types (w : World) (m : Machine) (p q : Project) (ps : list Project).

Lemma index_projects_snoc ps p (lookup : gmap string Project) :
  index_projects (ps ++ [p]) lookup = <[project_ident p := p]> (index_projects ps lookup).
Proof. unfold index_projects. by rewrite foldl_snoc. Qed.

(** An entry of the lookup is a fetched project under its own id, or an
    entry that was there before. *)
Lemma index_projects_origin ps (lookup : gmap string Project) k q :
  index_projects ps lookup !! k = Some q ->
  (q ∈ ps /\ project_ident q = k) \/ lookup !! k = Some q.
Proof.
  induction ps as [|p ps IH] using rev_ind; [by right|].
  rewrite index_projects_snoc.
  destruct (decide (project_ident p = k)) as [<-|Hne].
  - rewrite lookup_insert_eq. intros [= <-]. left. split; [|done].
    apply elem_of_app. right. apply list_elem_of_here.
  - rewrite lookup_insert_ne by done. intros [[Hin Hk]|Hold]%IH; [left|by right].
    split; [|done]. apply elem_of_app. by left.
Qed.

(** The id of a fetched project leads to a fetched project of that id. *)
Lemma index_projects_fetched ps (lookup : gmap string Project) p :
  p ∈ ps ->
  exists q, index_projects ps lookup !! project_ident p = Some q /\
            q ∈ ps /\ project_ident q = project_ident p.
Proof.
  induction ps as [|p' ps IH] using rev_ind; [by intros ?%elem_of_nil|].
  rewrite index_projects_snoc. intros Hin.
  destruct (decide (project_ident p' = project_ident p)) as [Heq|Hne].
  - exists p'. rewrite Heq, lookup_insert_eq. split; [done|]. split; [|done].
    apply elem_of_app. right. apply list_elem_of_here.
  - apply elem_of_app in Hin as [Hin|Hin].
    + destruct (IH Hin) as (q & Hq & Hqin & Hqid). exists q.
      rewrite lookup_insert_ne by done. split; [done|]. split; [|done].
      apply elem_of_app. by left.
    + apply list_elem_of_singleton in Hin. by subst.
Qed.

(** An id that no fetched project has keeps what it led to. *)
Lemma index_projects_other ps (lookup : gmap string Project) k :
  (forall p, p ∈ ps -> project_ident p <> k) ->
  index_projects ps lookup !! k = lookup !! k.
Proof.
  induction ps as [|p ps IH] using rev_ind; [done|]. intros Hfresh.
  rewrite index_projects_snoc, lookup_insert_ne.
  - apply IH. intros q Hq. apply Hfresh, elem_of_app. by left.
  - apply Hfresh, elem_of_app. right. apply list_elem_of_here.
Qed.

(** X1: once the projects are fetched, the lookup of the command leads from
    the id of every fetched project to a fetched project of that id, and
    from every other id to what it led to before; nothing else is in it. *)
Theorem loadProjects_lookup w m ps :
  projects_response w = inr ps ->
  (loadProjects w m).1 = Resolved tt /\
  (forall p, p ∈ ps ->
     exists q, projects (loadProjects w m).2 !! project_ident p = Some q /\
               q ∈ ps /\ project_ident q = project_ident p) /\
  (forall k, (forall p, p ∈ ps -> project_ident p <> k) ->
     projects (loadProjects w m).2 !! k = projects m !! k) /\
  (forall k q, projects (loadProjects w m).2 !! k = Some q ->
     (q ∈ ps /\ project_ident q = k) \/ projects m !! k = Some q).
Proof.
  intros Hps. unfold loadProjects, makeToDoistRequest. rewrite Hps.
  cbn [settled fst snd set_projects projects emit].
  split; [done|]. split; [|split].
  - intros p Hp. by apply index_projects_fetched.
  - intros k Hk. by apply index_projects_other.
  - intros k q Hq. by apply index_projects_origin.
Qed.

(** X2: of two fetched projects with the same id the later one is kept:
    the lookup leads from an id to the last fetched project that has it. *)
Theorem loadProjects_last_wins w m (before after : list Project) p :
  projects_response w = inr (before ++ p :: after)%list ->
  (forall q, q ∈ after -> project_ident q <> project_ident p) ->
  projects (loadProjects w m).2 !! project_ident p = Some p.
Proof.
  intros Hps Hlast. unfold loadProjects, makeToDoistRequest. rewrite Hps.
  cbn [settled fst snd set_projects projects emit].
  unfold index_projects. rewrite foldl_app. cbn [foldl].
  fold (index_projects before (projects m)).
  fold (index_projects after
          (<[project_ident p := p]> (index_projects before (projects m)))).
  rewrite index_projects_other by done. apply lookup_insert_eq.
Qed.

End LookupFacts.

Lemma loadProjects_lookup_witness :
  projects_response w_ok = inr [p1; p2] /\
  (loadProjects w_ok (new_command "key")).1 = Resolved tt /\
  projects (loadProjects w_ok (new_command "key")).2 !! "p9" = None.
Proof.
  split; [reflexivity|].
  destruct (loadProjects_lookup w_ok (new_command "key") [p1; p2] eq_refl)
    as (Hresolved & _ & Hother & _).
  split; [exact Hresolved|]. rewrite Hother; [reflexivity|].
  intros p [->|[->|[]%elem_of_nil]%elem_of_cons]%elem_of_cons; discriminate.
Defined.

Lemma loadProjects_last_wins_witness :
  projects_response w_renamed = inr ([p1] ++ p1' :: [p2])%list /\
  projects (loadProjects w_renamed (new_command "key")).2 !! "p1" = Some p1'.
Proof.
  split; [reflexivity|].
  apply (loadProjects_last_wins w_renamed (new_command "key") [p1] [p2] p1');
    [reflexivity|].
  intros q [->|[]%elem_of_nil]%elem_of_cons. discriminate.
Defined.

(** ** The requests and the enrichment *)

Section EnrichmentFacts.

Implicit Types (w : World) (m : Machine) (t : Task) (task : ref).

Lemma omap_seq_lookup {A B : Type} (f : A -> B) (l : list A) :
  omap (fun i => f <$> l !! i) (seq 0 (length l)) = f <$> l.
Proof.
  assert (forall pre : list A,
            omap (fun i => f <$> (pre ++ l)%list !! i) (seq (length pre) (length l))
            = f <$> l) as Hgen.
  { induction l as [|x l IH]; intros pre; [done|].
    cbn [length seq omap list_omap]. rewrite list_lookup_middle by done.
    cbn [fmap option_fmap option_map]. rewrite fmap_cons. f_equal.
    specialize (IH (pre ++ [x])%list).
    rewrite length_app, <- app_assoc in IH. cbn [length app] in IH.
    by rewrite Nat.add_1_r in IH. }
  apply (Hgen []).
Qed.

(** The enrichment issues the comment request of each reference in turn. *)
Lemma enrichTasksWithComments_trace w tasks m :
  Forall (fun task => is_Some (store m !! task)) tasks ->
  trace (enrichTasksWithComments w tasks m).2 =
  (trace m ++
   omap (fun task => (fun t => get_request (todoistApiKey m) (comments_url (id t)))
                       <$> store m !! task) tasks)%list.
Proof.
  revert m. induction tasks as [|task tasks IH]; intros m Hrefs.
  - cbn. by rewrite app_nil_r.
  - apply Forall_cons in Hrefs as [[t Ht] Hrefs].
    cbn [enrichTasksWithComments omap list_omap].
    unfold request_comments, makeToDoistRequest. rewrite Ht.
    cbn [fmap option_fmap option_map].
    specialize (IH (emit [HttpRequest (comments_url (id t)) (method_name GET) None
                            ("Bearer " +:+ todoistApiKey m)] m) Hrefs).
    destruct (enrichTasksWithComments w tasks _) as [[e|pending] m'];
      cbn [snd] in *; rewrite IH; cbn [trace emit store todoistApiKey];
      by rewrite <- app_assoc.
Qed.

(** The requests of [loadData] once the projects and the tasks are fetched,
    whatever becomes of the comment requests. *)
Lemma loadData_trace w m ps ts :
  projects_response w = inr ps ->
  tasks_response w = inr ts ->
  trace (loadData w m).2 =
  (trace m ++ get_request (todoistApiKey m) projects_url
           :: get_request (todoistApiKey m) tasks_url
           :: comment_requests (todoistApiKey m) ts)%list.
Proof.
  intros Hps Hts.
  unfold loadData, loadProjects, allTasks, makeToDoistRequest.
  rewrite Hps, Hts. cbn [settled].
  set (m1 := set_projects _ _). set (m2 := set_store _ _).
  assert (Forall (fun task => is_Some (store m2 !! task)) (seq 0 (length ts))) as Hrefs.
  { apply Forall_forall. intros task [_ Hlt]%elem_of_seq. by apply lookup_lt_is_Some. }
  pose proof (enrichTasksWithComments_trace w _ m2 Hrefs) as Htrace.
  destruct (enrichTasksWithComments_spec w _ m2 Hrefs) as (pending & m3 & E & _).
  rewrite E in Htrace |- *. cbn [snd] in Htrace.
  destruct (Promise_all_frame w pending m3) as (-> & _).
  rewrite Htrace. unfold m2 at 1 2 3, m1. cbn [store set_store trace emit todoistApiKey set_projects].
  rewrite omap_seq_lookup. unfold comment_requests, get_request.
  by rewrite <- !app_assoc.
Qed.

(** When every request has succeeded and the references are distinct, each
    task object gets the comments of its own request, in whatever order the
    callbacks run. *)
Lemma settle_store (queue : list (ref * Promise (list Comment))) m :
  NoDup queue.*1 ->
  Forall (fun p => exists cs, p.2 = Resolved cs) queue ->
  forall task,
    store (settle queue m).2 !! task =
    match (list_to_map queue : gmap nat (Promise (list Comment))) !! task with
    | Some (Resolved cs) => set_comments cs <$> store m !! task
    | _ => store m !! task
    end.
Proof.
  revert m. induction queue as [|[task0 answer] queue IH]; intros m Hnodup Hall task.
  - cbn [list_to_map foldr]. by rewrite lookup_empty.
  - rewrite fmap_cons in Hnodup. apply NoDup_cons in Hnodup as [Hfresh Hnodup].
    apply Forall_cons in Hall as [[cs Hcs] Hall]. simpl in Hcs. subst answer.
    cbn [settle then_attach]. rewrite IH by done.
    rewrite list_to_map_cons.
    destruct (decide (task0 = task)) as [->|Hne].
    + rewrite lookup_insert_eq, not_elem_of_list_to_map_1 by done.
      cbn [attach_comments set_store store]. apply list_lookup_alter_eq.
    + rewrite lookup_insert_ne by done.
      cbn [attach_comments set_store store].
      by rewrite list_lookup_alter_ne.
Qed.

Lemma Promise_all_snd w pending m :
  (Promise_all w pending m).2 = (settle (by_arrival w pending) m).2.
Proof.
  unfold Promise_all. by destruct (settle (by_arrival w pending) m) as [[e|] m'].
Qed.

(** [loadData] when every request succeeds: each task with the comments
    that the service has for its id. *)
Lemma loadData_attaches w m ps ts :
  projects_response w = inr ps ->
  tasks_response w = inr ts ->
  (forall t, t ∈ ts -> exists cs, comments_response w (id t) = inr cs) ->
  exists m',
    loadData w m = (Resolved (seq 0 (length ts)), m') /\
    projects m' = index_projects ps (projects m) /\
    todoistApiKey m' = todoistApiKey m /\
    length (store m') = length ts /\
    (forall task t cs,
       ts !! task = Some t -> comments_response w (id t) = inr cs ->
       store m' !! task = Some (set_comments cs t)).
Proof.
  intros Hps Hts Hok.
  destruct (loadData_enrichment w m ps ts Hps Hts)
    as (pending & m3 & Hload & Hfst & Hall & Hstore & Hprojects & Hkey & _).
  assert (Forall (fun p => exists cs, p.2 = Resolved cs) pending) as Hres.
  { eapply Forall_impl; [exact Hall|]. intros [task answer] (t & Ht & ->).
    destruct (Hok t) as [cs ->]; [by eapply list_elem_of_lookup_2|]. by exists cs. }
  assert (NoDup pending.*1) as Hnodup by (rewrite Hfst; apply NoDup_seq).
  pose proof (Promise_all_resolved w pending m3 Hres) as Hout.
  destruct (Promise_all_frame w pending m3) as (_ & Hp & Hk & Hwc).
  exists (loadData w m).2. rewrite Hload.
  split; [|split; [by rewrite Hp|split; [by rewrite Hk|split]]].
  - rewrite <- Hfst, <- Hout. by destruct (Promise_all w pending m3).
  - apply (f_equal length) in Hwc. rewrite !length_fmap in Hwc. by rewrite Hwc, Hstore.
  - intros task t cs Ht Hcs.
    assert ((task, Resolved cs) ∈ pending) as Hin.
    { assert (task ∈ pending.*1) as Href.
      { rewrite Hfst. apply elem_of_seq. apply lookup_lt_Some in Ht. lia. }
      apply list_elem_of_fmap in Href as ([task0 answer] & -> & Hp0).
      rewrite Forall_forall in Hall.
      destruct (Hall _ Hp0) as (t0 & Ht0 & Hanswer). simpl in Ht0, Hanswer, Ht.
      rewrite Ht in Ht0. injection Ht0 as <-.
      by rewrite Hcs in Hanswer; subst answer. }
    apply (elem_of_list_to_map_1 (M := gmap nat)) in Hin; [|done].
    rewrite Promise_all_snd, settle_store; [| |].
    + rewrite <- (list_to_map_proper pending (by_arrival w pending)).
      * by rewrite Hin, Hstore, Ht.
      * done.
      * by rewrite (by_arrival_perm w).
    + by rewrite (by_arrival_perm w).
    + by rewrite (by_arrival_perm w).
Qed.

(** The queue of [by_arrival] before the instants are dropped. *)
Lemma insert_by_arrival_sorted {A : Type} (x : nat * A) queue :
  StronglySorted (fun y z => y.1 <= z.1)%nat queue ->
  StronglySorted (fun y z => y.1 <= z.1)%nat (insert_by_arrival x queue).
Proof.
  induction 1 as [|y queue Hsorted IH Hy]; cbn [insert_by_arrival].
  - repeat constructor.
  - destruct (Nat.leb_spec x.1 y.1) as [Hle|Hlt].
    + constructor; [by constructor|]. constructor; [done|].
      eapply Forall_impl; [exact Hy|]. intros z Hz. simpl in *. lia.
    + constructor; [done|]. rewrite insert_by_arrival_perm.
      constructor; [lia|done].
Qed.

Lemma foldr_insert_by_arrival {A : Type} (l : list (nat * A)) :
  StronglySorted (fun y z => y.1 <= z.1)%nat (foldr insert_by_arrival [] l) /\
  foldr insert_by_arrival [] l ≡ₚ l.
Proof.
  induction l as [|x l [IHs IHp]]; [split; [constructor|done]|]. cbn [foldr]. split.
  - by apply insert_by_arrival_sorted.
  - by rewrite insert_by_arrival_perm, IHp.
Qed.

(** The rejection that [settle] reports is the first of the queue. *)
Lemma settle_first queue m e :
  (settle queue m).1 = Some e ->
  exists done_before task rest,
    queue = (done_before ++ (task, Rejected e) :: rest)%list /\
    Forall (fun p => exists cs, p.2 = Resolved cs) done_before.
Proof.
  revert m. induction queue as [|[task0 [cs|e0]] queue IH]; intros m; [done| |].
  - cbn [settle then_attach]. intros (l1 & task & l2 & -> & Hl1)%IH.
    exists ((task0, Resolved cs) :: l1), task, l2. split; [done|].
    constructor; [by exists cs|done].
  - cbn [settle then_attach fst]. intros [= ->]. by exists [], task0, queue.
Qed.

(** [Promise.all] is rejected with the reason of the request that failed
    first: no failed request has arrived before it. *)
Lemma Promise_all_first w (pending : list (ref * Promise (list Comment))) m e :
  (Promise_all w pending m).1 = Rejected e ->
  exists i task,
    pending !! i = Some (task, Rejected e) /\
    forall j task' e',
      pending !! j = Some (task', Rejected e') -> (arrival w i <= arrival w j)%nat.
Proof.
  unfold Promise_all, by_arrival.
  set (keyed := imap (fun i p => (arrival w i, p)) pending).
  destruct (foldr_insert_by_arrival keyed) as [Hsorted Hperm].
  destruct (settle _ m) as [[e0|] m'] eqn:Hsettle; [|done]. intros [= ->].
  apply (f_equal fst) in Hsettle.
  apply settle_first in Hsettle as (l1 & task & l2 & Hqueue & Hl1).
  apply fmap_app_inv in Hqueue as (k1 & k2' & -> & Hk2 & Hk).
  symmetry in Hk2. apply fmap_cons_inv in Hk2 as ([a p] & k2 & Hp & -> & ->).
  simpl in Hp. subst p. rewrite Hk in Hsorted.
  assert ((a, (task, Rejected e)) ∈ keyed) as Hin.
  { rewrite <- Hperm, Hk. apply elem_of_app. right. apply list_elem_of_here. }
  apply elem_of_lookup_imap in Hin as (i & p & [= -> <-] & Hi).
  exists i, task. split; [done|]. intros j task' e' Hj.
  assert ((arrival w j, (task', Rejected e')) ∈ keyed) as Hin'.
  { apply elem_of_lookup_imap. by exists j, (task', Rejected e'). }
  rewrite <- Hperm, Hk in Hin'.
  apply elem_of_app in Hin' as [Hin'|Hin'].
  - apply (list_elem_of_fmap_2 snd) in Hin'. simpl in Hin'.
    rewrite Forall_forall in Hl1. by destruct (Hl1 _ Hin') as [cs ?].
  - apply elem_of_cons in Hin' as [Heq|Hin'].
    + injection Heq as ->. lia.
    + apply StronglySorted_app_1_r, StronglySorted_inv in Hsorted as [_ Hle].
      rewrite Forall_forall in Hle. by apply (Hle _ Hin').
Qed.

End EnrichmentFacts.

(** ** The import, from the first request to the insertion *)

Section ImportFacts.

Variable format_date : string -> string.

Implicit Types (w : World) (m : Machine) (t : Task) (task : ref).

(** The machine is its four fields. *)
Lemma machine_eq m m' :
  todoistApiKey m = todoistApiKey m' -> projects m = projects m' ->
  store m = store m' -> trace m = trace m' -> m = m'.
Proof. destruct m, m'. simpl. by intros -> -> -> ->. Qed.

(** A failing comment request rejects [loadData]. *)
Lemma loadData_comment_failure w m ps ts t e :
  projects_response w = inr ps ->
  tasks_response w = inr ts ->
  t ∈ ts ->
  comments_response w (id t) = inl e ->
  exists e', (loadData w m).1 = Rejected e'.
Proof.
  intros Hps Hts Hin He.
  destruct (loadData_enrichment w m ps ts Hps Hts)
    as (pending & m3 & Hload & Hfst & Hall & _).
  apply list_elem_of_lookup in Hin as [task Htask].
  assert ((task, Rejected e) ∈ pending) as Hrej.
  { assert (task ∈ pending.*1) as Href.
    { rewrite Hfst. apply elem_of_seq. apply lookup_lt_Some in Htask. lia. }
    apply list_elem_of_fmap in Href as ([task0 answer] & -> & Hp).
    rewrite Forall_forall in Hall.
    destruct (Hall _ Hp) as (t0 & Ht0 & Hanswer). simpl in Ht0, Hanswer, Htask.
    rewrite Htask in Ht0. injection Ht0 as <-.
    by rewrite He in Hanswer; subst answer. }
  destruct (Promise_all_rejected w pending m3 _ _ Hrej) as (e' & _ & Hout & _).
  exists e'. by rewrite Hload.
Qed.

(** A map whose callback never throws gives one result per element. *)
Lemma map_throwing_resolves {A B : Type} (f : A -> Error + B) l :
  (forall x, x ∈ l -> exists y, f x = inr y) ->
  exists ys, map_throwing f l = inr ys /\ Forall2 (fun x y => f x = inr y) l ys.
Proof.
  induction l as [|x l IH]; intros Hok; [by exists []|].
  destruct (Hok x) as [y Hy]; [apply list_elem_of_here|].
  destruct IH as (ys & Hys & Hall).
  { intros x' Hx'. apply Hok. by apply list_elem_of_further. }
  exists (y :: ys). simpl. rewrite Hy, Hys. split; [done|]. by constructor.
Qed.

Lemma map_throwing_inv {A B : Type} (f : A -> Error + B) l ys :
  map_throwing f l = inr ys -> Forall2 (fun x y => f x = inr y) l ys.
Proof.
  revert ys. induction l as [|x l IH]; intros ys; simpl.
  - intros [= <-]. constructor.
  - destruct (f x) as [e|y] eqn:Hx; [done|].
    destruct (map_throwing f l) as [e|ys'] eqn:Hl; [done|].
    intros [= <-]. constructor; [done|]. by apply IH.
Qed.

(** What [execute] adds to the calls of [loadData]. *)
Lemma execute_tail w m :
  exists tail,
    trace (execute format_date w m).2 = (trace (loadData w m).2 ++ tail)%list /\
    match (execute format_date w m).1 with
    | Rejected _ => tail = [] \/ tail = [ConsoleLog "Importing all tasks"]
    | Resolved _ =>
        exists text, tail = [ConsoleLog "Importing all tasks"; GetCursor;
                             ReplaceRange text (cursor w)]
    end.
Proof.
  unfold execute. destruct (loadData w m) as [[tasks|e] m1]; cbn [snd].
  - destruct (map_throwing _ tasks) as [e|blocks]; cbn [fst snd trace emit].
    + eexists. split; [done|]. by right.
    + eexists. split; [by rewrite <- app_assoc|]. by eexists.
  - exists []. split; [by rewrite app_nil_r|]. by left.
Qed.

(** X3: when the projects cannot be fetched the import is rejected with
    the reason of that request, which is the only call made: the tasks are
    not requested and the command object is otherwise as it was. *)
Theorem projects_failure_stops w m e :
  projects_response w = inl e ->
  loadData w m = (Rejected e, emit [get_request (todoistApiKey m) projects_url] m) /\
  execute format_date w m =
    (Rejected e, emit [get_request (todoistApiKey m) projects_url] m).
Proof.
  intros Hps. unfold execute, loadData, loadProjects, makeToDoistRequest.
  by rewrite Hps.
Qed.

(** X4: when the projects are fetched and the tasks cannot be, the import
    is rejected with the reason of the tasks request after exactly the two
    requests: no comment is requested, nothing is logged or inserted, and
    the lookup holds the fetched projects. *)
Theorem tasks_failure_stops w m ps e :
  projects_response w = inr ps ->
  tasks_response w = inl e ->
  exists m',
    execute format_date w m = (Rejected e, m') /\
    trace m' = (trace m ++ [get_request (todoistApiKey m) projects_url;
                            get_request (todoistApiKey m) tasks_url])%list /\
    projects m' = index_projects ps (projects m) /\
    store m' = store m.
Proof.
  intros Hps Hts.
  unfold execute, loadData, loadProjects, allTasks, makeToDoistRequest.
  rewrite Hps, Hts. cbn [settled]. eexists. split; [reflexivity|].
  cbn [trace emit set_projects projects store todoistApiKey].
  by rewrite <- app_assoc.
Qed.

(** X5: once the projects and the tasks are fetched, one comment request is
    issued per fetched task, for the id of the task and in the order of the
    tasks, whether these requests succeed or not; no request follows them. *)
Theorem comment_requests_issued w m ps ts :
  projects_response w = inr ps ->
  tasks_response w = inr ts ->
  exists tail,
    trace (execute format_date w m).2 =
      (trace m ++ get_request (todoistApiKey m) projects_url
               :: get_request (todoistApiKey m) tasks_url
               :: comment_requests (todoistApiKey m) ts ++ tail)%list /\
    Forall (fun ev => forall target method body auth,
                        ev <> HttpRequest target method body auth) tail.
Proof.
  intros Hps Hts. destruct (execute_tail w m) as (tail & -> & Htail).
  exists tail. rewrite (loadData_trace w m ps ts Hps Hts). split.
  - by rewrite <- app_assoc.
  - destruct (execute format_date w m).1.
    + destruct Htail as [text ->]. by repeat constructor.
    + destruct Htail as [->| ->]; by repeat constructor.
Qed.

(** X6: whatever the service answers, every request of an import is a
    [GET] without body on one of the three endpoints, with the key of the
    command as bearer token. *)
Theorem requests_authorized w m :
  exists evs,
    trace (execute format_date w m).2 = (trace m ++ evs)%list /\
    Forall (authorized_get (todoistApiKey m)) evs.
Proof.
  destruct (execute_tail w m) as (tail & -> & Htail).
  assert (Forall (authorized_get (todoistApiKey m)) tail) as Hquiet.
  { destruct (execute format_date w m).1.
    - destruct Htail as [text ->]. by repeat constructor.
    - destruct Htail as [->| ->]; by repeat constructor. }
  clear Htail.
  assert (authorized_get (todoistApiKey m)
            (get_request (todoistApiKey m) projects_url)) as Hp.
  { repeat split. by left. }
  assert (authorized_get (todoistApiKey m)
            (get_request (todoistApiKey m) tasks_url)) as Ht.
  { repeat split. right. by left. }
  destruct (projects_response w) as [e|ps] eqn:Hps.
  { unfold loadData, loadProjects, makeToDoistRequest. rewrite Hps.
    cbn [settled snd trace emit]. eexists. rewrite <- app_assoc. split; [done|].
    apply Forall_app. split; [|done]. by apply Forall_singleton. }
  destruct (tasks_response w) as [e|ts] eqn:Hts.
  { unfold loadData, loadProjects, allTasks, makeToDoistRequest. rewrite Hps, Hts.
    cbn [settled snd trace emit set_projects]. eexists.
    rewrite <- !app_assoc. split; [done|].
    apply Forall_app. split; [by apply Forall_singleton|].
    apply Forall_app. split; [by apply Forall_singleton|done]. }
  rewrite (loadData_trace w m ps ts Hps Hts). eexists.
  rewrite <- app_assoc. split; [done|].
  apply Forall_app. split; [|done].
  apply Forall_cons. split; [done|]. apply Forall_cons. split; [done|].
  unfold comment_requests. apply Forall_fmap, Forall_forall. intros t _.
  repeat split. right. right. by eexists.
Qed.

(** X7: when every request succeeds, the order in which the comment
    requests are answered changes nothing: the import ends with the same
    calls, the same task objects and the same lookup. *)
Theorem arrival_is_immaterial w m ps ts (f : nat -> nat) :
  projects_response w = inr ps ->
  tasks_response w = inr ts ->
  (forall t, t ∈ ts -> exists cs, comments_response w (id t) = inr cs) ->
  loadData (with_arrival f w) m = loadData w m /\
  execute format_date (with_arrival f w) m = execute format_date w m.
Proof.
  intros Hps Hts Hok.
  assert (loadData (with_arrival f w) m = loadData w m) as E.
  { destruct (loadData_attaches w m ps ts Hps Hts Hok)
      as (m1 & E1 & Hp1 & Hk1 & Hl1 & Hs1).
    destruct (loadData_attaches (with_arrival f w) m ps ts Hps Hts Hok)
      as (m2 & E2 & Hp2 & Hk2 & Hl2 & Hs2).
    pose proof (loadData_trace w m ps ts Hps Hts) as Ht1.
    pose proof (loadData_trace (with_arrival f w) m ps ts Hps Hts) as Ht2.
    rewrite E1 in Ht1 |- *. rewrite E2 in Ht2 |- *. cbn [snd] in Ht1, Ht2.
    f_equal. apply machine_eq; [congruence..| |congruence].
    apply list_eq. intros task.
    destruct (ts !! task) as [t|] eqn:Ht.
    - destruct (Hok t) as [cs Hcs]; [by eapply list_elem_of_lookup_2|].
      by rewrite (Hs1 task t cs), (Hs2 task t cs).
    - apply lookup_ge_None in Ht.
      rewrite !(proj2 (lookup_ge_None _ _)); [done|lia..]. }
  split; [done|]. unfold execute. by rewrite E.
Qed.

(** X8: when every request succeeds and the project of every task is in
    the lookup, the import resolves: after the requests it logs its message,
    asks for the cursor and inserts there, once, the blocks of the tasks,
    each rendered with the comments fetched for its id, in the order of the
    tasks and joined by the separator. *)
Theorem import_succeeds w m ps ts :
  projects_response w = inr ps ->
  tasks_response w = inr ts ->
  (forall t, t ∈ ts -> exists cs, comments_response w (id t) = inr cs) ->
  (forall t, t ∈ ts -> is_Some (index_projects ps (projects m) !! project_id t)) ->
  exists blocks m',
    execute format_date w m = (Resolved tt, m') /\
    Forall2 (fun t block =>
               exists cs, comments_response w (id t) = inr cs /\
                 transformToMarkdown format_date (index_projects ps (projects m))
                                     (set_comments cs t) = inr block)
            ts blocks /\
    trace m' =
      (trace m ++ get_request (todoistApiKey m) projects_url
               :: get_request (todoistApiKey m) tasks_url
               :: comment_requests (todoistApiKey m) ts
               ++ [ConsoleLog "Importing all tasks"; GetCursor;
                   ReplaceRange (Js.join separator blocks) (cursor w)])%list.
Proof.
  intros Hps Hts Hok Hprojects.
  destruct (loadData_attaches w m ps ts Hps Hts Hok)
    as (m1 & E & Hp & Hk & Hl & Hs).
  pose proof (loadData_trace w m ps ts Hps Hts) as Htrace.
  rewrite E in Htrace. cbn [snd] in Htrace.
  set (m2 := emit [ConsoleLog "Importing all tasks"] m1).
  assert (forall task t, ts !! task = Some t ->
            exists cs block,
              comments_response w (id t) = inr cs /\
              render format_date m2 task = inr block /\
              transformToMarkdown format_date (index_projects ps (projects m))
                                  (set_comments cs t) = inr block) as Hrender.
  { intros task t Ht.
    destruct (Hok t) as [cs Hcs]; [by eapply list_elem_of_lookup_2|].
    destruct (Hprojects t) as [P HP]; [by eapply list_elem_of_lookup_2|].
    destruct (transformToMarkdown_resolves format_date
                (index_projects ps (projects m)) (set_comments cs t) P HP)
      as [block Hblock].
    exists cs, block. split; [done|]. split; [|done].
    unfold render. cbn [m2 emit store projects].
    by rewrite (Hs task t cs Ht Hcs), Hp. }
  destruct (map_throwing_resolves (render format_date m2) (seq 0 (length ts)))
    as (blocks & Hmap & Hall).
  { intros task [_ Hlt]%elem_of_seq.
    destruct (lookup_lt_is_Some_2 ts task) as [t Ht]; [lia|].
    destruct (Hrender task t Ht) as (cs & block & _ & Hblock & _). by exists block. }
  exists blocks. eexists. unfold execute. rewrite E. fold m2. rewrite Hmap.
  split; [reflexivity|]. split.
  - apply Forall2_same_length_lookup_2.
    { apply Forall2_length in Hall. by rewrite length_seq in Hall. }
    intros task t block Ht Hblock.
    destruct (Hrender task t Ht) as (cs & block' & Hcs & Hb & Htm).
    exists cs. split; [done|].
    assert (seq 0 (length ts) !! task = Some task) as Hseq.
    { apply lookup_seq. apply lookup_lt_Some in Ht. lia. }
    pose proof (Forall2_lookup_lr _ _ _ _ _ _ Hall Hseq Hblock) as Hb'.
    simpl in Hb'. congruence.
  - cbn [trace emit m2]. rewrite Htrace. by rewrite <- !app_assoc.
Qed.

(** X9: an import that resolves has fetched the projects, the tasks and the
    comments of every task, and the project id of every task is in its
    lookup or is the name of a function that the lookup object inherits. *)
Theorem import_resolved_inv w m m' :
  execute format_date w m = (Resolved tt, m') ->
  exists ps ts,
    projects_response w = inr ps /\
    tasks_response w = inr ts /\
    (forall t, t ∈ ts -> exists cs, comments_response w (id t) = inr cs) /\
    (forall t, t ∈ ts ->
       is_Some (index_projects ps (projects m) !! project_id t) \/
       Js.has (project_id t) object_prototype_functions = true).
Proof.
  intros Hexec.
  destruct (projects_response w) as [e|ps] eqn:Hps.
  { unfold execute, loadData, loadProjects, makeToDoistRequest in Hexec.
    by rewrite Hps in Hexec. }
  destruct (tasks_response w) as [e|ts] eqn:Hts.
  { unfold execute, loadData, loadProjects, allTasks, makeToDoistRequest in Hexec.
    by rewrite Hps, Hts in Hexec. }
  exists ps, ts. do 2 (split; [done|]).
  unfold execute in Hexec.
  destruct (loadData w m) as [[tasks|e] m1] eqn:Hload; [|done].
  split.
  - intros t Hin. destruct (comments_response w (id t)) as [e|cs] eqn:Hcs; [|by exists cs].
    destruct (loadData_comment_failure w m ps ts t e Hps Hts Hin Hcs) as [e' He'].
    by rewrite Hload in He'.
  - intros t Hin.
    destruct (loadData_resolved w m ps ts tasks m1 Hps Hts Hload)
      as (-> & Hprojects & Hstore).
    set (m2 := emit _ m1) in Hexec.
    destruct (map_throwing (render format_date m2) (seq 0 (length ts)))
      as [e|blocks] eqn:Hmap; [done|].
    apply map_throwing_inv in Hmap.
    apply list_elem_of_lookup in Hin as [task Htask].
    assert (seq 0 (length ts) !! task = Some task) as Hseq.
    { apply lookup_seq. apply lookup_lt_Some in Htask. lia. }
    destruct (Forall2_lookup_l _ _ _ _ _ Hmap Hseq) as (block & _ & Hblock).
    unfold render in Hblock. cbn [m2 emit store projects] in Hblock.
    apply (f_equal (fun l => l !! task)) in Hstore.
    rewrite !list_lookup_fmap, Htask in Hstore.
    destruct (store m1 !! task) as [t1|]; [|done].
    assert (without_comments t1 = without_comments t) as Hsame
      by (cbn [fmap option_fmap option_map] in Hstore; congruence).
    apply (f_equal project_id) in Hsame. cbn in Hsame.
    rewrite Hprojects in Hblock.
    destruct (index_projects ps (projects m) !! project_id t) as [P|] eqn:HP;
      [by left|].
    destruct (Js.has (project_id t) object_prototype_functions) eqn:Hfn;
      [by right|].
    destruct (transformToMarkdown_throws format_date
                (index_projects ps (projects m)) t1) as [msg Hthrows];
      [by rewrite Hsame..|].
    by rewrite Hthrows in Hblock.
Qed.

(** X10: an import inserts all or nothing: a resolved import has logged its
    message and asked for exactly one insertion, a rejected import for none,
    whatever the service answers. *)
Theorem import_all_or_nothing w m :
  match (execute format_date w m).1 with
  | Resolved _ =>
      exists text,
        insertions (trace (execute format_date w m).2) =
          (insertions (trace m) ++ [text])%list /\
        logged (trace (execute format_date w m).2) =
          (logged (trace m) ++ ["Importing all tasks"])%list
  | Rejected _ =>
      insertions (trace (execute format_date w m).2) = insertions (trace m)
  end.
Proof.
  destruct (execute_tail w m) as (tail & Htrace & Htail).
  destruct (loadData_silent w m) as (_ & Hins & Hlog).
  rewrite Htrace. unfold insertions, logged in *.
  rewrite !omap_app, Hins, Hlog.
  destruct (execute format_date w m).1.
  - destruct Htail as [text ->]. by exists text.
  - destruct Htail as [->| ->]; cbn; by rewrite app_nil_r.
Qed.

(** X11: when the service lists no task, the import resolves all the same:
    after the two requests it logs its message and inserts the empty text
    at the cursor. *)
Theorem import_of_no_task w m ps :
  projects_response w = inr ps ->
  tasks_response w = inr [] ->
  exists m',
    execute format_date w m = (Resolved tt, m') /\
    trace m' =
      (trace m ++ [get_request (todoistApiKey m) projects_url;
                   get_request (todoistApiKey m) tasks_url;
                   ConsoleLog "Importing all tasks"; GetCursor;
                   ReplaceRange "" (cursor w)])%list.
Proof.
  intros Hps Hts.
  unfold execute, loadData, loadProjects, allTasks, makeToDoistRequest.
  rewrite Hps, Hts. cbn [settled length seq enrichTasksWithComments].
  unfold Promise_all, by_arrival.
  cbn [imap foldr fmap list_fmap settle map_throwing Js.join].
  eexists. split; [reflexivity|].
  cbn [trace emit set_store set_projects todoistApiKey].
  by rewrite <- !app_assoc.
Qed.

(** X12: when the projects and the tasks are fetched and [loadData] is
    rejected, the reason is the failure of the comment request of a task,
    and no comment request that failed was answered before that one. *)
Theorem first_failure_rejects w m ps ts e m' :
  projects_response w = inr ps ->
  tasks_response w = inr ts ->
  loadData w m = (Rejected e, m') ->
  exists i t,
    ts !! i = Some t /\ comments_response w (id t) = inl e /\
    forall j t' e',
      ts !! j = Some t' -> comments_response w (id t') = inl e' ->
      (arrival w i <= arrival w j)%nat.
Proof.
  intros Hps Hts Hload.
  destruct (loadData_enrichment w m ps ts Hps Hts)
    as (pending & m3 & E & Hfst & Hall & _).
  rewrite E in Hload.
  assert (forall k task answer,
            pending !! k = Some (task, answer) ->
            exists t, ts !! k = Some t /\
                      answer = settled (comments_response w (id t))) as Hpending.
  { intros k task answer Hk.
    assert (task = k) as ->.
    { apply (f_equal (fun l => l !! k)) in Hfst.
      rewrite list_lookup_fmap, Hk in Hfst. simpl in Hfst.
      symmetry in Hfst. by apply lookup_seq in Hfst as [-> _]. }
    rewrite Forall_lookup in Hall. destruct (Hall _ _ Hk) as (t & Ht & Hanswer).
    by exists t. }
  destruct (Promise_all_first w pending m3 e) as (i & task & Hi & Hmin).
  { by rewrite Hload. }
  destruct (Hpending _ _ _ Hi) as (t & Ht & Hanswer).
  exists i, t. split; [done|].
  split; [by destruct (comments_response w (id t)); simplify_eq/=|].
  intros j t' e' Hj He'.
  destruct (lookup_lt_is_Some_2 pending j) as [[task' answer] Hpj].
  { apply (f_equal length) in Hfst. rewrite length_fmap, length_seq in Hfst.
    rewrite Hfst. by eapply lookup_lt_Some. }
  destruct (Hpending _ _ _ Hpj) as (t'' & Ht'' & ->).
  rewrite Hj in Ht''. injection Ht'' as <-. rewrite He' in Hpj.
  by eapply Hmin.
Qed.

End ImportFacts.

Lemma tasks_failure_stops_witness :
  projects_response w_no_tasks = inr [p1; p2] /\
  tasks_response w_no_tasks = inl (RequestError "Request failed, status 401") /\
  exists m',
    execute utc_day w_no_tasks (new_command "key") =
      (Rejected (RequestError "Request failed, status 401"), m').
Proof.
  split; [reflexivity|]. split; [reflexivity|].
  destruct (tasks_failure_stops utc_day w_no_tasks (new_command "key") [p1; p2]
              (RequestError "Request failed, status 401") eq_refl eq_refl)
    as (m' & Hexec & _).
  exists m'. exact Hexec.
Defined.

Lemma projects_failure_stops_witness :
  projects_response w_offline = inl (RequestError "net::ERR_NAME_NOT_RESOLVED") /\
  (execute utc_day w_offline (new_command "key")).1 =
    Rejected (RequestError "net::ERR_NAME_NOT_RESOLVED").
Proof.
  split; [reflexivity|].
  rewrite (proj2 (projects_failure_stops utc_day w_offline (new_command "key")
                    (RequestError "net::ERR_NAME_NOT_RESOLVED") eq_refl)).
  reflexivity.
Defined.

Lemma comment_requests_issued_witness :
  projects_response w_comment_failure = inr [p1; p2] /\
  tasks_response w_comment_failure = inr [t1; t2] /\
  exists tail,
    trace (execute utc_day w_comment_failure (new_command "key")).2 =
      ([] ++ get_request "key" projects_url :: get_request "key" tasks_url
          :: comment_requests "key" [t1; t2] ++ tail)%list.
Proof.
  split; [reflexivity|]. split; [reflexivity|].
  destruct (comment_requests_issued utc_day w_comment_failure (new_command "key")
              [p1; p2] [t1; t2] eq_refl eq_refl) as (tail & Htrace & _).
  exists tail. exact Htrace.
Defined.

Lemma arrival_is_immaterial_witness :
  projects_response w_ok = inr [p1; p2] /\
  tasks_response w_ok = inr [t1; t2] /\
  execute utc_day (with_arrival (fun i => i) w_ok) (new_command "key") =
  execute utc_day w_ok (new_command "key").
Proof.
  split; [reflexivity|]. split; [reflexivity|].
  apply (arrival_is_immaterial utc_day w_ok (new_command "key") [p1; p2] [t1; t2]);
    [reflexivity|reflexivity|].
  intros t [->|[->|[]%elem_of_nil]%elem_of_cons]%elem_of_cons; eexists; reflexivity.
Defined.

Lemma import_succeeds_witness :
  projects_response w_ok = inr [p1; p2] /\
  tasks_response w_ok = inr [t1; t2] /\
  exists (blocks : list string) m',
    execute utc_day w_ok (new_command "key") = (Resolved tt, m') /\
    length blocks = 2%nat.
Proof.
  split; [reflexivity|]. split; [reflexivity|].
  destruct (import_succeeds utc_day w_ok (new_command "key") [p1; p2] [t1; t2])
    as (blocks & m' & Hexec & Hblocks & _); [reflexivity|reflexivity| | |].
  - intros t [->|[->|[]%elem_of_nil]%elem_of_cons]%elem_of_cons; eexists; reflexivity.
  - intros t [->|[->|[]%elem_of_nil]%elem_of_cons]%elem_of_cons; eexists; reflexivity.
  - exists blocks, m'. split; [exact Hexec|].
    apply Forall2_length in Hblocks. symmetry. exact Hblocks.
Defined.

Lemma import_resolved_inv_witness :
  exists m',
    execute utc_day w_ok (new_command "key") = (Resolved tt, m') /\
    exists ps ts, projects_response w_ok = inr ps /\ tasks_response w_ok = inr ts.
Proof.
  eexists. split; [vm_compute; reflexivity|].
  destruct (import_resolved_inv utc_day w_ok (new_command "key") _ eq_refl)
    as (ps & ts & Hps & Hts & _).
  exists ps, ts. split; [exact Hps|exact Hts].
Defined.

Lemma import_of_no_task_witness :
  projects_response w_empty = inr [p1; p2] /\
  tasks_response w_empty = inr [] /\
  insertions (trace (execute utc_day w_empty (new_command "key")).2) = [""].
Proof.
  split; [reflexivity|]. split; [reflexivity|].
  destruct (import_of_no_task utc_day w_empty (new_command "key") [p1; p2]
              eq_refl eq_refl) as (m' & Hexec & Htrace).
  rewrite Hexec. cbn [snd]. rewrite Htrace. reflexivity.
Defined.

Lemma first_failure_rejects_witness :
  projects_response w_two_failures = inr [p1; p2] /\
  tasks_response w_two_failures = inr [t1; t2] /\
  (loadData w_two_failures (new_command "key")).1 =
    Rejected (RequestError "t2 failed") /\
  exists i t, [t1; t2] !! i = Some t /\
              comments_response w_two_failures (id t) = inl (RequestError "t2 failed").
Proof.
  split; [reflexivity|]. split; [reflexivity|]. split; [reflexivity|].
  destruct (first_failure_rejects w_two_failures (new_command "key") [p1; p2] [t1; t2]
              (RequestError "t2 failed")
              (loadData w_two_failures (new_command "key")).2 eq_refl eq_refl)
    as (i & t & Hi & Ht & _); [vm_compute; reflexivity|].
  exists i, t. split; [exact Hi|exact Ht].
Defined.

(** ** Labels, comments and priorities in the block *)

Section BlockFacts.

Variable format_date : string -> string.
Variable lookup : gmap string Project.

Implicit Types (s a b sub sep : string) (t : Task) (P : Project).

Lemma includes_app_l sub a b :
  Js.includes sub a = true -> Js.includes sub (a +:+ b) = true.
Proof.
  intros (pre & post & ->)%includes_spec.
  rewrite !append_assoc. apply includes_intro.
Qed.

Lemma includes_refl s : Js.includes s s = true.
Proof. rewrite <- (append_nil_r s) at 2. apply includes_prefix. Qed.

(** What is joined is in the result. *)
Lemma includes_join sep (parts : list string) s :
  s ∈ parts -> Js.includes s (Js.join sep parts) = true.
Proof.
  induction parts as [|x parts IH]; [by intros ?%elem_of_nil|].
  intros [->|Hin]%elem_of_cons.
  - destruct parts; [apply includes_refl|apply includes_prefix].
  - destruct parts as [|y parts]; [by apply elem_of_nil in Hin|].
    change (Js.join sep (x :: y :: parts))
      with (x +:+ sep +:+ Js.join sep (y :: parts)).
    by apply includes_app_r, includes_app_r, IH.
Qed.

Lemma ends_with_nl_app_r a b :
  ends_with_nl b = true -> ends_with_nl (a +:+ b) = true.
Proof.
  intros Hb. induction a as [|c a IH]; [done|].
  rewrite append_cons. destruct (a +:+ b) as [|d s'] eqn:E.
  - destruct a; [|done]. rewrite append_nil_l in E. by subst.
  - exact IH.
Qed.

(** X13: a priority that is not an index of the five names is rendered as
    [[priority:: undefined]], and the priority 0 as [[priority:: none]]; the
    block is rendered all the same. *)
Theorem priority_out_of_range t P :
  lookup !! project_id t = Some P ->
  exists out,
    transformToMarkdown format_date lookup t = inr out /\
    (priority t < 0 \/ 4 < priority t ->
       Js.includes "[priority:: undefined]" out = true) /\
    (priority t = 0 -> Js.includes "[priority:: none]" out = true).
Proof.
  intros H. unfold transformToMarkdown, read_project. rewrite H.
  eexists. split; [reflexivity|]. split.
  - intros Hp.
    assert (Js.index priority_names (priority t) = "undefined") as ->.
    { unfold Js.index. destruct (Z.ltb_spec (priority t) 0); [done|].
      rewrite (proj2 (lookup_ge_None priority_names (Z.to_nat (priority t)))); [done|].
      cbn [priority_names length]. lia. }
    find_piece.
  - intros ->. find_piece.
Qed.

(** X14: every label of the task is in the block as a tag, [#] before it;
    a task without labels leaves the two spaces of the template between
    its title and the project tag. *)
Theorem labels_are_tags t P :
  lookup !! project_id t = Some P ->
  exists out,
    transformToMarkdown format_date lookup t = inr out /\
    (forall label, label ∈ labels t -> Js.includes ("#" +:+ label) out = true) /\
    (labels t = [] -> Js.includes (content t +:+ "  #project-") out = true).
Proof.
  intros H. unfold transformToMarkdown, read_project. rewrite H.
  eexists. split; [reflexivity|]. split.
  - intros label Hin.
    repeat first
      [ solve [apply includes_app_l, includes_join, list_elem_of_fmap; by exists label]
      | apply includes_app_r ].
  - intros ->. cbn [map Js.join]. do 3 apply includes_app_r.
    apply includes_spec. exists "". eexists.
    rewrite !append_assoc. reflexivity.
Qed.

(** X15: the content of every comment of the task is in the block, and the
    block ends with a line feed, so that the separator of the next block
    starts a line. *)
Theorem comments_in_block t P :
  lookup !! project_id t = Some P ->
  exists out,
    transformToMarkdown format_date lookup t = inr out /\
    (forall c, c ∈ comments t -> Js.includes (comment_content c) out = true) /\
    ends_with_nl out = true.
Proof.
  intros H. unfold transformToMarkdown, read_project. rewrite H.
  eexists. split; [reflexivity|]. split.
  - intros c Hin.
    repeat first
      [ solve [apply includes_app_l, includes_join, list_elem_of_fmap; by exists c]
      | apply includes_app_r ].
  - by repeat apply ends_with_nl_app_r.
Qed.

End BlockFacts.

Lemma priority_out_of_range_witness :
  lookup1 !! project_id t7 = Some p1 /\
  exists out,
    transformToMarkdown utc_day lookup1 t7 = inr out /\
    Js.includes "[priority:: undefined]" out = true.
Proof.
  split; [reflexivity|].
  destruct (priority_out_of_range utc_day lookup1 t7 p1 eq_refl)
    as (out & Hout & Hundefined & _).
  exists out. split; [exact Hout|]. apply Hundefined. right. reflexivity.
Defined.

Lemma labels_are_tags_witness :
  lookup1 !! project_id t3 = Some p1 /\
  exists out,
    transformToMarkdown utc_day lookup1 t3 = inr out /\
    Js.includes "#money" out = true.
Proof.
  split; [reflexivity|].
  destruct (labels_are_tags utc_day lookup1 t3 p1 eq_refl) as (out & Hout & Htag & _).
  exists out. split; [exact Hout|].
  apply (Htag "money"). apply list_elem_of_further, list_elem_of_here.
Defined.

Lemma comments_in_block_witness :
  lookup1 !! project_id t3 = Some p1 /\
  exists out,
    transformToMarkdown utc_day lookup1 t3 = inr out /\
    Js.includes "by bank transfer" out = true /\
    ends_with_nl out = true.
Proof.
  split; [reflexivity|].
  destruct (comments_in_block utc_day lookup1 t3 p1 eq_refl)
    as (out & Hout & Hcomment & Hend).
  exists out. split; [exact Hout|]. split; [|exact Hend].
  apply (Hcomment (mkComment "by bank transfer" "c1" "2024-01-08T00:00:00Z" "t3")).
  apply list_elem_of_here.
Defined.

(** ** The settings of the plugin *)

Section SettingsFacts.

Variable format_date : string -> string.

Implicit Types (st : Plugin.State) (w : World).

(** After [onload] the commander reads the object just loaded. *)
Lemma onload_shares st :
  shares_settings (Plugin.onload st) /\
  Plugin.commander_key (Plugin.onload st) =
    Some (Plugin.todoistApiKey
            (Plugin.assign Plugin.IMPORT_TODOIST_SETTINGS (Plugin.data st))).
Proof.
  split.
  - exists (length (Plugin.objects st)). do 2 (split; [done|]).
    cbn. rewrite length_app. cbn. lia.
  - unfold Plugin.commander_key. cbn.
    by rewrite list_lookup_middle.
Qed.

(** A key typed in the tab reaches the commander and the saved data, and
    the object stays shared. *)
Lemma onChange_shares value st :
  shares_settings st ->
  exists st',
    Plugin.onChange value st = inr st' /\
    shares_settings st' /\
    Plugin.commander_key st' = Some value /\
    Plugin.data st' = Some (Some value).
Proof.
  intros (r & Hs & Hc & Hlt). unfold Plugin.onChange. rewrite Hs.
  destruct (lookup_lt_is_Some_2 _ _ Hlt) as [o ->].
  eexists. split; [reflexivity|]. split; [|split; [|done]].
  - exists r. cbn. do 2 (split; [done|]). by rewrite length_insert.
  - unfold Plugin.commander_key. cbn. rewrite Hc. cbn.
    by rewrite list_lookup_insert_eq.
Qed.

Lemma type_keys_shares values value st :
  shares_settings st ->
  exists st',
    Plugin.type_keys (values ++ [value]) st = inr st' /\
    shares_settings st' /\
    Plugin.commander_key st' = Some value /\
    Plugin.data st' = Some (Some value).
Proof.
  revert st. induction values as [|v values IH]; intros st Hshared.
  - destruct (onChange_shares value st Hshared) as (st' & E & H').
    exists st'. cbn. by rewrite E.
  - destruct (onChange_shares v st Hshared) as (st1 & E & Hshared1 & _).
    destruct (IH st1 Hshared1) as (st' & E' & H').
    exists st'. cbn. by rewrite E.
Qed.

(** X16: whatever keys are typed in the settings tab after the plugin has
    loaded, none of them is refused, and the last one typed is the key of the
    next import, is what the host has saved, and is the key of the imports
    after the plugin is loaded again from what was saved. *)
Theorem typed_key_is_used w st0 values value :
  exists st,
    Plugin.type_keys (values ++ [value]) (Plugin.onload st0) = inr st /\
    Plugin.importAllTasks format_date w st =
      inr (execute format_date w (new_command value)) /\
    Plugin.data st = Some (Some value) /\
    Plugin.importAllTasks format_date w
        (Plugin.onload (Plugin.installed (Plugin.data st))) =
      inr (execute format_date w (new_command value)).
Proof.
  destruct (type_keys_shares values value (Plugin.onload st0))
    as (st & E & _ & Hkey & Hdata); [apply onload_shares|].
  exists st. split; [done|]. split; [|split; [done|]].
  - unfold Plugin.importAllTasks. by rewrite Hkey.
  - unfold Plugin.importAllTasks. rewrite (proj2 (onload_shares _)).
    cbn [Plugin.installed Plugin.data]. by rewrite Hdata.
Qed.

(** X17: the key of the imports of a plugin just loaded is the saved one;
    when the host has saved nothing, or an object without the key, it is
    the default [apiKey], with which the requests are sent all the same. *)
Theorem loaded_key_is_saved_or_default w st0 :
  Plugin.importAllTasks format_date w (Plugin.onload st0) =
    inr (execute format_date w
           (new_command match Plugin.data st0 with
                        | Some (Some key) => key
                        | _ => "apiKey"
                        end)).
Proof.
  unfold Plugin.importAllTasks. rewrite (proj2 (onload_shares st0)).
  by destruct (Plugin.data st0) as [[key|]|].
Qed.

End SettingsFacts.

(** ** One enrichment that fails, and the order of the annotations *)

Section MoreFacts.

Variable format_date : string -> string.
Variable lookup : gmap string Project.

(** X18: when the comment request of a task fails, [withComments] is
    rejected with the reason of the request; the request for the id of the
    task is the only call made, and the task objects, the task's comments
    among them, stay as they were. *)
Theorem withComments_rejected (w : World) (m : Machine) (task : ref) (t : Task) e :
  store m !! task = Some t ->
  comments_response w (id t) = inl e ->
  withComments w task m =
    (Rejected e, emit [get_request (todoistApiKey m) (comments_url (id t))] m) /\
  store (withComments w task m).2 = store m.
Proof.
  intros Ht He. unfold withComments, request_comments, makeToDoistRequest.
  by rewrite Ht, He.
Qed.

(** X19: the annotations follow the project tag in a fixed order, a space
    between them: creation date, priority, id, and then the place of the
    due date with the space that follows it. *)
Theorem annotations_in_order (t : Task) (P : Project) :
  lookup !! project_id t = Some P ->
  exists out,
    transformToMarkdown format_date lookup t = inr out /\
    Js.includes
      ("#project-" +:+ Js.replace " " "-" (name P)
       +:+ " [created:: " +:+ format_date (created_at t)
       +:+ "] [priority:: " +:+ Js.index priority_names (priority t)
       +:+ "] [id:: " +:+ id t +:+ "] "
       +:+ match due t with
           | Some d => "[due:: " +:+ format_date (datetime d) +:+ "]"
           | None => ""
           end +:+ " ") out = true.
Proof.
  intros H. unfold transformToMarkdown, read_project. rewrite H.
  eexists. split; [reflexivity|].
  apply includes_spec.
  exists ("- [" +:+ (if is_completed t then "x" else " ") +:+ "] " +:+ content t
          +:+ " " +:+ Js.join " " (map (fun label => "#" +:+ label) (labels t))
          +:+ " ").
  eexists. rewrite !append_assoc. reflexivity.
Qed.

End MoreFacts.

Lemma withComments_rejected_witness :
  store (set_store [t1; t2] (new_command "key")) !! 1%nat = Some t2 /\
  comments_response w_comment_failure (id t2) =
    inl (RequestError "Request failed, status 500") /\
  (withComments w_comment_failure 1%nat (set_store [t1; t2] (new_command "key"))).1 =
    Rejected (RequestError "Request failed, status 500").
Proof.
  split; [reflexivity|]. split; [reflexivity|].
  rewrite (proj1 (withComments_rejected w_comment_failure
                    (set_store [t1; t2] (new_command "key")) 1%nat t2
                    (RequestError "Request failed, status 500") eq_refl eq_refl)).
  reflexivity.
Defined.

Lemma annotations_in_order_witness :
  lookup1 !! project_id t3 = Some p1 /\
  exists out,
    transformToMarkdown utc_day lookup1 t3 = inr out /\
    Js.includes
      "#project-Work-Stuff [created:: 2024-01-07] [priority:: highest] [id:: t3] [due:: 2024-02-01] "
      out = true.
Proof.
  split; [reflexivity|].
  destruct (annotations_in_order utc_day lookup1 t3 p1 eq_refl) as (out & Hout & Hin).
  exists out. split; [exact Hout|exact Hin].
Defined.
